(** * Retrieval engine of the civic-analysis RAG service

    A shallow embedding of the two Flask applications of the repository:
    - [App]  : [src/app.py], the per-user document question-answering service
               (segmenter, per-user FAISS index, session table);
    - [Main] : [src/main.py], the shared-corpus service with the two-model
               ensemble search.

    Conventions.
    - Python [int] is [Z]; [len] returns a [Z].
    - Python [str] is [string]; [str.split()] and [str.join] are modelled in
      module [Py] on the ASCII whitespace characters.
    - Python [float] scores are modelled by exact rationals [Q]: every finite
      binary float is a rational, and products and sums are taken without
      rounding. Where rounding decides a property, the expression is also
      given on binary64 floats (module [Binary64]).
    - The dict [user_documents] is a [gmap string _]; the dict
      [combined_results], whose insertion order is observable through the
      stable [sorted], is an association list.
    - Collaborators that live outside the repository (the sentence
      tokenizer, the embedding models, the text extractors, the language
      model, the clock) are [Variable]s of the enclosing [Section]. *)

From Stdlib Require Import Ascii String ZArith QArith Lia Lqa Sorting.Sorted Sorting.Permutation.
From Stdlib Require PrimFloat.
From stdpp Require Import base list sorting strings gmap.

Local Open Scope string_scope.
Local Open Scope list_scope.
Local Open Scope Z_scope.

(** ** Python built-ins *)

Module Py.

Definition len {A} (l : list A) : Z := Z.of_nat (length l).

(** Truthiness of a list: [if xs:]. *)
Definition truthy {A} (l : list A) : bool :=
  match l with [] => false | _ => true end.

(** [l[start:]] *)
Definition slice_from {A} (l : list A) (start : Z) : list A :=
  let n := len l in
  let i := if start <? 0 then Z.max (start + n) 0 else Z.min start n in
  drop (Z.to_nat i) l.

(** [l[:stop]] *)
Definition slice_to {A} (l : list A) (stop : Z) : list A :=
  let n := len l in
  let j := if stop <? 0 then Z.max (stop + n) 0 else Z.min stop n in
  take (Z.to_nat j) l.

(** [l[i]] for a Python list: negative indices count from the end,
    anything else out of range raises [IndexError] ([None]). *)
Definition getitem {A} (l : list A) (i : Z) : option A :=
  let n := len l in
  if (0 <=? i) && (i <? n) then l !! Z.to_nat i
  else if (- n <=? i) && (i <? 0) then l !! Z.to_nat (i + n)
  else None.

(** ASCII characters for which [str.isspace] holds:
    TAB, LF, VT, FF, CR, FS, GS, RS, US and SPACE. *)
Definition is_space (c : ascii) : bool :=
  let n := Z.of_nat (nat_of_ascii c) in
  ((9 <=? n) && (n <=? 13)) || ((28 <=? n) && (n <=? 32)).

(** [s.split()]: maximal runs of non-whitespace characters. [tok] is the
    token being read, if any. *)
Fixpoint split_ws (tok : option string) (s : string) : list string :=
  match s with
  | EmptyString =>
      match tok with Some t => [t] | None => [] end
  | String c s' =>
      if is_space c then
        match tok with
        | Some t => t :: split_ws None s'
        | None => split_ws None s'
        end
      else
        split_ws (Some (match tok with
                        | Some t => t +:+ String c EmptyString
                        | None => String c EmptyString
                        end)) s'
  end.

Definition split (s : string) : list string := split_ws None s.

(** [sep.join(l)] *)
Fixpoint join (sep : string) (l : list string) : string :=
  match l with
  | [] => EmptyString
  | [x] => x
  | x :: l' => x +:+ sep +:+ join sep l'
  end.

(** [sum(xs)] over ints *)
Definition sum (l : list Z) : Z := foldr Z.add 0 l.

(** [s.endswith(suffix)] *)
Definition endswith (s suffix : string) : bool :=
  let n := String.length s in
  let m := String.length suffix in
  (m <=? n)%nat && String.eqb (String.substring (n - m) m s) suffix.

(** [s.startswith(prefix)] *)
Definition startswith (s pre : string) : bool := String.prefix pre s.

(** [re.sub(r'\s+', ' ', s)]: every maximal whitespace run becomes one
    space. [in_run] tells whether the previous character was whitespace. *)
Fixpoint sub_ws (in_run : bool) (s : string) : string :=
  match s with
  | EmptyString => EmptyString
  | String c s' =>
      if is_space c then
        if in_run then sub_ws true s' else String " " (sub_ws true s')
      else String c (sub_ws false s')
  end.

(** [s.lstrip()], [s.rstrip()], [s.strip()] *)
Fixpoint lstrip (s : string) : string :=
  match s with
  | EmptyString => EmptyString
  | String c s' => if is_space c then lstrip s' else s
  end.

Fixpoint rstrip (s : string) : string :=
  match s with
  | EmptyString => EmptyString
  | String c s' =>
      match rstrip s' with
      | EmptyString => if is_space c then EmptyString else String c EmptyString
      | r => String c r
      end
  end.

Definition strip (s : string) : string := rstrip (lstrip s).

(** Exceptions and the result of a call that may raise. *)
Inductive exn : Type :=
  | ValueError (msg : string)
  | AssertionError
  | IndexError
  | OtherError (msg : string).

Inductive result (A : Type) : Type :=
  | Return (a : A)
  | Raise (e : exn).
Arguments Return {A} a.
Arguments Raise {A} e.

Definition bind {A B} (r : result A) (f : A -> result B) : result B :=
  match r with
  | Return a => f a
  | Raise e => Raise e
  end.

Definition of_option {A} (e : exn) (o : option A) : result A :=
  match o with Some a => Return a | None => Raise e end.

(** [str(e)] *)
Definition str_of_exn (e : exn) : string :=
  match e with
  | ValueError msg => msg
  | AssertionError => ""
  | IndexError => "list index out of range"
  | OtherError msg => msg
  end.

(** [sorted(l, key=key, reverse=True)]: stable, so elements with equal keys
    keep their relative order. *)
Section Sorted.
Context {A : Type} (key : A -> Q).

Fixpoint insert_desc (x : A) (l : list A) : list A :=
  match l with
  | [] => [x]
  | y :: l' =>
      if Qle_bool (key y) (key x) then x :: y :: l'
      else y :: insert_desc x l'
  end.

Definition sorted_desc (l : list A) : list A := foldr insert_desc [] l.
End Sorted.

(** [s.replace(old, new)] for one-character [old] and [new]. *)
Fixpoint replace_char (old new : ascii) (s : string) : string :=
  match s with
  | EmptyString => EmptyString
  | String c s' =>
      String (if Ascii.eqb c old then new else c) (replace_char old new s')
  end.

(** [s.replace(old, new)] for a non-empty [old]: the occurrences of [old]
    are found from the left and do not overlap; [skip] counts the characters
    of the occurrence just replaced that are still to be dropped. *)
Fixpoint replace_from (old new : string) (skip : nat) (s : string) : string :=
  match s with
  | EmptyString => EmptyString
  | String c s' =>
      match skip with
      | S n => replace_from old new n s'
      | O =>
          if String.prefix old s
          then new +:+ replace_from old new (String.length old - 1) s'
          else String c (replace_from old new 0 s')
      end
  end.

Definition replace (old new s : string) : string := replace_from old new 0 s.

(** [ch in s] for a one-character [ch]. *)
Fixpoint contains_char (ch : ascii) (s : string) : bool :=
  match s with
  | EmptyString => false
  | String c s' => Ascii.eqb c ch || contains_char ch s'
  end.

(** The one-character strings of a double quote and of an apostrophe. *)
Definition dquote : string := String (ascii_of_nat 34) EmptyString.
Definition squote : string := String (ascii_of_nat 39) EmptyString.

End Py.

#[global] Instance result_bind : MBind Py.result := fun A B f r => Py.bind r f.
#[global] Instance result_ret : MRet Py.result := fun A a => Py.Return a.

(** ** The FAISS flat inner-product index

    [faiss.IndexFlatIP] is a third-party library. This is its documented
    behaviour: an exhaustive scan of the stored vectors; [search] returns,
    for one query, exactly [k] distances and [k] labels, best inner product
    first; when fewer than [k] vectors are stored the remaining slots hold
    the label [-1] and the distance [-FLT_MAX]. The Python wrapper asserts
    the dimension of its argument and [k > 0]. The library does not
    document the order of results with equal scores; [knn] keeps them in
    insertion order, which is a choice of this model, and no statement
    below depends on it. *)

Module Faiss.

Definition vector : Type := list Q.

Record IndexFlatIP : Type := {
  d : Z;               (* dimension *)
  xb : list vector     (* stored vectors, in insertion order *)
}.

(** [faiss.IndexFlatIP(d)] *)
Definition new (dim : Z) : IndexFlatIP := {| d := dim; xb := [] |}.

Definition ntotal (ix : IndexFlatIP) : Z := Py.len (xb ix).

Definition has_dim (dim : Z) (v : vector) : bool := Py.len v =? dim.

(** [index.add(x)] *)
Definition add (ix : IndexFlatIP) (x : list vector) : Py.result IndexFlatIP :=
  if forallb (has_dim (d ix)) x
  then Py.Return {| d := d ix; xb := xb ix ++ x |}
  else Py.Raise Py.AssertionError.

Definition inner_product (u v : vector) : Q :=
  foldr Qplus 0%Q (zip_with Qmult u v).

(** Largest finite single-precision float. *)
Definition FLT_MAX : Q := 340282346638528859811704183484516925440 # 1.

(** Scores of all stored vectors, paired with their positions. *)
Definition scan (ix : IndexFlatIP) (q : vector) : list (Q * Z) :=
  imap (fun i v => (inner_product q v, Z.of_nat i)) (xb ix).

(** The [k] result slots of one query: the best of [scan], then padding. *)
Definition knn (ix : IndexFlatIP) (q : vector) (k : nat) : list (Q * Z) :=
  let best := take k (Py.sorted_desc fst (scan ix q)) in
  best ++ replicate (k - length best) ((- FLT_MAX)%Q, -1).

(** [distances, indices = index.search(x, k)] for a single query row:
    the components are [distances[0]] and [indices[0]]. *)
Definition search (ix : IndexFlatIP) (q : vector) (k : Z)
    : Py.result (list Q * list Z) :=
  if negb (has_dim (d ix) q) then Py.Raise Py.AssertionError
  else if negb (0 <? k) then Py.Raise Py.AssertionError
  else
    let slots := knn ix q (Z.to_nat k) in
    Py.Return (map fst slots, map snd slots).

End Faiss.

(** ** [src/app.py]: text segmenter *)

Module App.

(** [len(s.split())] *)
Definition n_tokens (s : string) : Z := Py.len (Py.split s).

(** [current_chunk[-overlap_sentences:] if overlap_sentences else []] *)
Definition take_overlap (current_chunk : list string) (overlap_sentences : Z)
    : list string :=
  if overlap_sentences =? 0 then []
  else Py.slice_from current_chunk (- overlap_sentences).

(** Loop state of [chunk_text]: [(chunks, current_chunk, current_length)]. *)
Definition chunk_state : Type := list string * list string * Z.

(** One iteration of [for sentence in sentences:]. *)
Definition chunk_step (max_tokens overlap_sentences : Z)
    (st : chunk_state) (sentence : string) : chunk_state :=
  let '(chunks, current_chunk, current_length) := st in
  let token_count := n_tokens sentence in
  if current_length + token_count <=? max_tokens then
    (chunks, current_chunk ++ [sentence], current_length + token_count)
  else
    let chunks :=
      if Py.truthy current_chunk
      then chunks ++ [Py.join " " current_chunk] else chunks in
    let overlap := take_overlap current_chunk overlap_sentences in
    let current_chunk := overlap ++ [sentence] in
    (chunks, current_chunk, Py.sum (map n_tokens current_chunk)).

(** The body of [chunk_text] after [sentences = sent_tokenize(text)]. *)
Definition chunk_sentences (sentences : list string)
    (max_tokens overlap_sentences : Z) : list string :=
  let '(chunks, current_chunk, _) :=
    fold_left (chunk_step max_tokens overlap_sentences) sentences ([], [], 0) in
  if Py.truthy current_chunk
  then chunks ++ [Py.join " " current_chunk] else chunks.

(** The same loop, keeping every chunk as the list of its sentences instead
    of their [" ".join]; [chunk_sentences_groups] relates the two. *)
Definition group_state : Type := list (list string) * list string * Z.

Definition group_step (max_tokens overlap_sentences : Z)
    (st : group_state) (sentence : string) : group_state :=
  let '(groups, current_chunk, current_length) := st in
  let token_count := n_tokens sentence in
  if current_length + token_count <=? max_tokens then
    (groups, current_chunk ++ [sentence], current_length + token_count)
  else
    let groups :=
      if Py.truthy current_chunk then groups ++ [current_chunk] else groups in
    let overlap := take_overlap current_chunk overlap_sentences in
    let current_chunk := overlap ++ [sentence] in
    (groups, current_chunk, Py.sum (map n_tokens current_chunk)).

Definition group_loop (max_tokens overlap_sentences : Z)
    (sentences : list string) : group_state :=
  fold_left (group_step max_tokens overlap_sentences) sentences ([], [], 0).

Definition close_groups (st : group_state) : list (list string) :=
  let '(groups, current_chunk, _) := st in
  if Py.truthy current_chunk then groups ++ [current_chunk] else groups.

Definition chunk_groups (sentences : list string)
    (max_tokens overlap_sentences : Z) : list (list string) :=
  close_groups (group_loop max_tokens overlap_sentences sentences).

(** [clean_text]: collapse whitespace runs, run the [replace] chain of the
    second statement, then strip. As the source file has it, that statement
    holds ASCII quotes only, so Python reads its first argument as a
    triple-quoted string: the fifteen characters [quoted_call], which are
    replaced by one double quote. The two calls that follow replace an
    apostrophe by an apostrophe. *)
Definition quoted_call : string :=
  ", " +:+ Py.squote +:+ Py.dquote +:+ Py.squote +:+ ").replace(".

Definition clean_text (text : string) : string :=
  let text := Py.sub_ws false text in
  let text :=
    Py.replace Py.squote Py.squote
      (Py.replace Py.squote Py.squote
         (Py.replace quoted_call Py.dquote text)) in
  Py.strip text.

(** *** Data model *)

Record Metadata : Type := {
  filename : string;
  chunks : list string;
  upload_date : string;
  total_chunks : Z
}.

(** A value of [user_documents]. *)
Record DocData : Type := {
  index : Faiss.IndexFlatIP;
  metadata : Metadata
}.

(** Process state: the global dict [user_documents] and the files of
    [UPLOAD_FOLDER], by file name. *)
Record State : Type := {
  user_documents : gmap string DocData;
  upload_folder : gmap string string
}.

(** An entry of the list returned by [semantic_search]. *)
Record SearchResult : Type := {
  chunk_text_of : string;   (* 'chunk_text' *)
  score : Q;                (* 'score' *)
  chunk_index : Z           (* 'chunk_index' *)
}.

(** JSON bodies of the responses. *)
Inductive Body : Type :=
  | ErrorBody (error : string)
  | MessageBody (message : string)
  | UploadBody (user_id message : string) (metadata : Metadata)
  | AnswerBody (answer : string)
  | SourcedAnswerBody (question answer : string) (sources : list (string * Q))
  | SummaryBody (summary filename : string) (chunks_analyzed total_chunks : Z)
  | MetadataBody (metadata : Metadata).

(** A response: body and HTTP status. *)
Definition Response : Type := Body * Z.

(** [not x] for an optional JSON string field. *)
Definition missing (field : option string) : bool :=
  match field with
  | None => true
  | Some s => String.eqb s ""
  end.

Definition newline : string := String (ascii_of_nat 10) EmptyString.

(** [embeddings.shape[1]] of the matrix whose rows are [embeddings]. *)
Definition shape1 (embeddings : list Faiss.vector) : Z :=
  match embeddings with
  | [] => 0
  | v :: _ => Py.len v
  end.

Section Service.
(** [nltk.tokenize.sent_tokenize] *)
Variable sent_tokenize : string -> list string.
(** [embedding_model.encode([text], normalize_embeddings=True)[0]] *)
Variable encode : string -> Faiss.vector.
(** Text extraction from the bytes of a PDF or DOCX file. *)
Variable extract_pdf : string -> Py.result string.
Variable extract_docx : string -> Py.result string.
(** [datetime.now().isoformat()] and [str(uuid.uuid4())] *)
Variable now : string.
Variable uuid4 : string.
(** Whether [file.save(filepath)] returns for the file name
    [<user_id>_<filename>] joined to the upload folder; it raises when the
    path cannot be opened for writing (a name with ['/'] that points into a
    directory that does not exist, a NUL character, a name too long, a full
    disk). *)
Variable save_ok : string -> bool.
(** [LLMChain.run] of the question-answering prompt (context, question)
    and of the summary prompt (document, filename). *)
Variable qa_chain : string -> string -> string.
Variable summary_chain : string -> string -> string.

Definition chunk_text (text : string) (max_tokens overlap_sentences : Z)
    : list string :=
  let sentences := sent_tokenize text in
  chunk_sentences sentences max_tokens overlap_sentences.

Definition read_file (st : State) (file_path : string) : Py.result string :=
  Py.of_option (Py.OtherError "No such file") (upload_folder st !! file_path).

Definition extract_text_from_pdf (st : State) (file_path : string) :=
  content ← read_file st file_path; extract_pdf content.

Definition extract_text_from_docx (st : State) (file_path : string) :=
  content ← read_file st file_path; extract_docx content.

(** Step 1 of [create_user_index]: extraction by file type. *)
Definition extract_text (st : State) (file_path filename : string)
    : Py.result string :=
  if Py.endswith filename ".pdf" then extract_text_from_pdf st file_path
  else if Py.endswith filename ".docx" then extract_text_from_docx st file_path
  else Py.Raise (Py.ValueError "Unsupported file format").

(** Everything [create_user_index] does before it stores the session. *)
Definition build_user_index (st : State) (file_path filename : string)
    : Py.result DocData :=
  text ← extract_text st file_path filename;
  let text := clean_text text in
  let chunks := chunk_text text 300 2 in
  if negb (Py.truthy chunks) then
    Py.Raise (Py.ValueError "No text extracted from document")
  else
    let embeddings := map encode chunks in
    index ← Faiss.add (Faiss.new (shape1 embeddings)) embeddings;
    let metadata := {| filename := filename;
                       chunks := chunks;
                       upload_date := now;
                       total_chunks := Py.len chunks |} in
    Py.Return {| index := index; metadata := metadata |}.

Definition create_user_index (st : State) (user_id file_path filename : string)
    : Py.result Metadata * State :=
  match build_user_index st file_path filename with
  | Py.Raise e => (Py.Raise e, st)
  | Py.Return doc_data =>
      (Py.Return (metadata doc_data),
       {| user_documents := <[user_id := doc_data]> (user_documents st);
          upload_folder := upload_folder st |})
  end.

(** The loop [for score, idx in zip(distances[0], indices[0])] of
    [semantic_search]. *)
Definition collect_hit (chunks : list string)
    (acc : Py.result (list SearchResult)) (hit : Q * Z)
    : Py.result (list SearchResult) :=
  results ← acc;
  let '(score, idx) := hit in
  if idx <? Py.len chunks then
    text ← Py.of_option Py.IndexError (Py.getitem chunks idx);
    Py.Return (results ++ [{| chunk_text_of := text;
                              score := score;
                              chunk_index := idx |}])
  else Py.Return results.

Definition semantic_search (st : State) (user_id query : string) (k : Z)
    : Py.result (list SearchResult) :=
  match user_documents st !! user_id with
  | None => Py.Return []
  | Some doc_data =>
      let index := index doc_data in
      let chunks := chunks (metadata doc_data) in
      let query_embedding := encode query in
      '(distances, indices) ← Faiss.search index query_embedding k;
      fold_left (collect_hit chunks) (zip distances indices) (Py.Return [])
  end.

(** [POST /upload]; [file] is [request.files['file']] as file name and
    content, [form_user_id] is [request.form.get('user_id')].
    [file.save] runs before the [try]: when it raises, the exception is not
    handled by the route and the request ends with the framework's 500
    response, as in [ask_question]. [upload_folder] holds the files of the
    upload folder itself; a name with ['/'] is saved to another directory,
    where the ingestion reads it back, and the folder keeps its files. *)
Definition upload_document (st : State) (file : option (string * string))
    (form_user_id : option string) : Response * State :=
  match file with
  | None => ((ErrorBody "No file provided", 400), st)
  | Some (filename, content) =>
      if String.eqb filename "" then ((ErrorBody "No file selected", 400), st)
      else
        let user_id := default uuid4 form_user_id in
        let filepath := user_id +:+ "_" +:+ filename in
        if negb (save_ok filepath) then
          ((ErrorBody "Internal Server Error", 500), st)
        else
          let saved := {| user_documents := user_documents st;
                          upload_folder := <[filepath := content]> (upload_folder st) |} in
          let '(r, st1) := create_user_index saved user_id filepath filename in
          let st2 :=
            if Py.contains_char "/" filepath
            then {| user_documents := user_documents st1;
                    upload_folder := upload_folder st |}
            else st1 in
          match r with
          | Py.Return metadata =>
              ((UploadBody user_id "Document processed successfully" metadata, 200), st2)
          | Py.Raise e => ((ErrorBody (Py.str_of_exn e), 500), st2)
          end
  end.

(** [POST /ask]; the arguments are [data.get('user_id')] and
    [data.get('question')]. An exception that escapes the handler is a
    500 response. *)
Definition ask_question (st : State) (user_id question : option string)
    : Response :=
  if missing user_id || missing question then
    (ErrorBody "user_id and question required", 400)
  else
    let user_id := default "" user_id in
    let question := default "" question in
    if negb (bool_decide (is_Some (user_documents st !! user_id))) then
      (ErrorBody "Document not found. Please upload first.", 404)
    else
      match semantic_search st user_id question 5 with
      | Py.Raise e => (ErrorBody "Internal Server Error", 500)
      | Py.Return results =>
          if negb (Py.truthy results) then
            (AnswerBody "I couldn't find relevant information in the document.", 200)
          else
            let context := Py.join (newline +:+ newline) (map chunk_text_of results) in
            let answer := qa_chain context question in
            (SourcedAnswerBody question answer
               (map (fun r => (String.substring 0 200 (chunk_text_of r) +:+ "...", score r))
                    (Py.slice_to results 3)), 200)
      end.

(** [POST /summary] *)
Definition generate_summary (st : State) (user_id : option string) : Response :=
  if missing user_id then (ErrorBody "user_id required", 400)
  else
    let user_id := default "" user_id in
    match user_documents st !! user_id with
    | None => (ErrorBody "Document not found", 404)
    | Some doc_data =>
        let chunks := chunks (metadata doc_data) in
        let filename := filename (metadata doc_data) in
        let max_chunks := 50 in
        let selected_chunks :=
          if Py.len chunks >? max_chunks then Py.slice_to chunks max_chunks
          else chunks in
        let full_text := Py.join (newline +:+ newline) selected_chunks in
        let summary := summary_chain full_text filename in
        (SummaryBody summary filename (Py.len selected_chunks) (Py.len chunks), 200)
    end.

(** [GET /documents/<user_id>] *)
Definition get_user_document_info (st : State) (user_id : string) : Response :=
  match user_documents st !! user_id with
  | None => (ErrorBody "Document not found", 404)
  | Some doc_data => (MetadataBody (metadata doc_data), 200)
  end.

(** [DELETE /documents/<user_id>] *)
Definition delete_user_document (st : State) (user_id : string)
    : Response * State :=
  if negb (bool_decide (is_Some (user_documents st !! user_id))) then
    ((ErrorBody "Document not found", 404), st)
  else
    let st := {| user_documents := delete user_id (user_documents st);
                 upload_folder :=
                   filter (fun kv => Py.startswith kv.1 user_id = false)
                          (upload_folder st) |} in
    ((MessageBody "Document deleted successfully", 200), st).

End Service.

End App.

(** ** [src/main.py]: ensemble search over the shared corpus *)

Module Main.

(** A row of [df_chunks] ([sdg_faiss_metadata.csv]). *)
Record Row : Type := {
  chunk_id : Z;
  theme : string;
  file_name : string;
  chunk_text : string
}.

(** The globals loaded by [initialize_models]: the one FAISS index read
    from [sdg_faiss.index] and the metadata frame. *)
Record State : Type := {
  index : Faiss.IndexFlatIP;
  df_chunks : list Row
}.

(** A value of the dict [combined_results]. *)
Record Entry : Type := {
  e_theme : string;          (* "theme" *)
  e_file : string;           (* "file" *)
  e_chunk_text : string;     (* "chunk_text" *)
  score_primary : Q;
  score_enhanced : Q;
  idx : Z
}.

(** The same dict once the key ["combined_score"] has been added. *)
Record Result : Type := {
  entry : Entry;
  combined_score : Q
}.

(** [combined_results]: a dict in insertion order. *)
Definition Dict : Type := list (Z * Entry).

Fixpoint dict_get (k : Z) (dict : Dict) : option Entry :=
  match dict with
  | [] => None
  | (k', v) :: dict' => if k' =? k then Some v else dict_get k dict'
  end.

(** [dict[k] = v]: an existing key keeps its place. *)
Fixpoint dict_set (k : Z) (v : Entry) (dict : Dict) : Dict :=
  match dict with
  | [] => [(k, v)]
  | (k', v') :: dict' =>
      if k' =? k then (k', v) :: dict' else (k', v') :: dict_set k v dict'
  end.

Definition dict_values (dict : Dict) : list Entry := map snd dict.

Definition set_score_enhanced (s : Q) (e : Entry) : Entry :=
  {| e_theme := e_theme e; e_file := e_file e; e_chunk_text := e_chunk_text e;
     score_primary := score_primary e; score_enhanced := s; idx := idx e |}.

(** [df_chunks.iloc[i]] *)
Definition iloc (df : list Row) (i : Z) : Py.result Row :=
  Py.of_option Py.IndexError (Py.getitem df i).

(** First loop of [semantic_search], over the primary hits. *)
Definition primary_pass (df : list Row) (acc : Py.result Dict) (hit : Q * Z)
    : Py.result Dict :=
  combined_results ← acc;
  let '(score, idx) := hit in
  if negb (idx =? -1) && (idx <? Py.len df) then
    row ← iloc df idx;
    Py.Return (dict_set (chunk_id row)
                 {| e_theme := theme row; e_file := file_name row;
                    e_chunk_text := chunk_text row;
                    score_primary := score; score_enhanced := 0%Q;
                    idx := idx |} combined_results)
  else Py.Return combined_results.

(** Second loop, over the hits of the second model. *)
Definition enhanced_pass (df : list Row) (acc : Py.result Dict) (hit : Q * Z)
    : Py.result Dict :=
  combined_results ← acc;
  let '(score, idx) := hit in
  if negb (idx =? -1) && (idx <? Py.len df) then
    row ← iloc df idx;
    match dict_get (chunk_id row) combined_results with
    | Some e =>
        Py.Return (dict_set (chunk_id row) (set_score_enhanced score e)
                            combined_results)
    | None =>
        Py.Return (dict_set (chunk_id row)
                     {| e_theme := theme row; e_file := file_name row;
                        e_chunk_text := chunk_text row;
                        score_primary := 0%Q; score_enhanced := score;
                        idx := idx |} combined_results)
    end
  else Py.Return combined_results.

(** [result["combined_score"] = score_primary * 0.7 + score_enhanced * 0.3],
    in exact arithmetic: the weights are the rationals 7/10 and 3/10 and
    nothing is rounded. The value Python computes is the binary64 rounding
    of it, [Binary64.fuse] below. *)
Definition fuse (p e : Q) : Q := (p * (7 # 10) + e * (3 # 10))%Q.

Definition with_combined_score (e : Entry) : Result :=
  {| entry := e; combined_score := fuse (score_primary e) (score_enhanced e) |}.

(** From the two hit lists to the returned list. *)
Definition combine (df : list Row) (primary enhanced : list (Q * Z)) (k : Z)
    : Py.result (list Result) :=
  combined_results ← fold_left (primary_pass df) primary (Py.Return []);
  combined_results ← fold_left (enhanced_pass df) enhanced (Py.Return combined_results);
  let results := map with_combined_score (dict_values combined_results) in
  let sorted_results := Py.sorted_desc combined_score results in
  Py.Return (Py.slice_to sorted_results k).

(** JSON bodies of the responses. *)
Inductive Body : Type :=
  | ErrorBody (error : string)
  | ResultsBody (results : list Result)
  | SummaryBody (challenge summary : string) (sources_count : Z).

Definition newline : string := String (ascii_of_nat 10) EmptyString.

Section Ensemble.
(** [primary_model.encode([query], normalize_embeddings=True)[0]] and the
    same for [secondary_model]. *)
Variable primary_model : string -> Faiss.vector.
Variable secondary_model : string -> Faiss.vector.

Definition semantic_search (st : State) (query : string) (k : Z)
    : Py.result (list Result) :=
  let query_embedding_primary := primary_model query in
  '(distances_primary, indices_primary) ←
    Faiss.search (index st) query_embedding_primary k;
  let query_embedding_enhanced := secondary_model query in
  '(distances_enhanced, indices_enhanced) ←
    Faiss.search (index st) query_embedding_enhanced k;
  combine (df_chunks st)
          (zip distances_primary indices_primary)
          (zip distances_enhanced indices_enhanced) k.

(** [llm_chain.run({"context": context_text})] *)
Variable llm_chain : string -> string.

(** [POST /search]; the arguments are [data.get('query')] and
    [data.get('k')]. An exception that escapes the handler is a 500
    response. *)
Definition search (st : State) (query : option string) (k : option Z)
    : Body * Z :=
  let query := default "" query in
  let k := default 10 k in
  if String.eqb query "" then (ErrorBody "Query is required", 400)
  else
    match semantic_search st query k with
    | Py.Raise e => (ErrorBody "Internal Server Error", 500)
    | Py.Return results => (ResultsBody results, 200)
    end.

(** One element of [docs_with_refs]. *)
Definition doc_with_ref (res : Result) : string :=
  let text :=
    Py.replace_char (ascii_of_nat 10) " " (Py.strip (e_chunk_text (entry res))) in
  let source := e_file (entry res) in
  text +:+ " (Source: " +:+ source +:+ ")".

(** [POST /generate_summary] *)
Definition generate_summary (st : State) (challenge : option string)
    (k : option Z) : Body * Z :=
  let challenge := default "" challenge in
  let k := default 30 k in
  if String.eqb challenge "" then (ErrorBody "Challenge is required", 400)
  else
    match semantic_search st challenge k with
    | Py.Raise e => (ErrorBody "Internal Server Error", 500)
    | Py.Return results =>
        let docs_with_refs := map doc_with_ref results in
        let context_text := Py.join (newline +:+ newline) docs_with_refs in
        let final_summary := llm_chain context_text in
        (SummaryBody challenge final_summary (Py.len results), 200)
    end.
End Ensemble.

End Main.

(** ** The fusion rule on binary64 floats

    [main.py] line 144 as Python evaluates it: [float(score)] is a binary64
    value, and the product with [0.7], the product with [0.3] and the sum
    are each rounded to binary64. The literals are the binary64 values of
    [0.7] and [0.3]. *)

Module Binary64.
Import PrimFloat.

Definition weight_primary : float := 0x1.6666666666666p-1%float.
Definition weight_enhanced : float := 0x1.3333333333333p-2%float.

(** [result["score_primary"] * 0.7 + result["score_enhanced"] * 0.3] *)
Definition fuse (p e : float) : float :=
  (p * weight_primary + e * weight_enhanced)%float.



End Binary64.

(** * Vocabulary of the statements *)

(** The last [n] elements of a list (all of them when it is shorter). *)
Definition last_sentences (n : Z) (l : list string) : list string :=
  drop (length l - Z.to_nat n) l.

(** [g'] starts with the last [n] sentences of [g], then one more sentence. *)
Definition seeded_by (n : Z) (g g' : list string) : Prop :=
  exists s rest, g' = last_sentences n g ++ s :: rest.

(** Every chunk but the first is seeded by the chunk before it. *)
Definition chained (n : Z) (groups : list (list string)) : Prop :=
  forall i g g', groups !! i = Some g -> groups !! S i = Some g' ->
    seeded_by n g g'.

(** Chunk [g], at position [i] of [groups], is an overflow seed: the last [n]
    sentences of the chunk before it ([prev], empty for the first chunk)
    followed by the sentence [s] that did not fit after [prev]. *)
Definition seed_after (max_tokens n : Z) (groups : list (list string))
    (i : nat) (g : list string) : Prop :=
  exists prev s,
    g = last_sentences n prev ++ [s]
    /\ max_tokens < Py.sum (map App.n_tokens prev) + App.n_tokens s
    /\ match i with
       | O => prev = []
       | S j => groups !! j = Some prev
       end.

(** Every chunk is within the token budget or is an overflow seed. *)
Definition budget_ok (max_tokens n : Z) (groups : list (list string)) : Prop :=
  forall i g, groups !! i = Some g ->
    Py.sum (map App.n_tokens g) <= max_tokens
    \/ seed_after max_tokens n groups i g.

(** Loop invariant of the segmenter for the overlap chain: no closed chunk is
    empty, and the current chunk continues the chain. *)
Definition chain_inv (n : Z) (st : App.group_state) : Prop :=
  let '(G, c, _) := st in
  Forall (fun g => g <> []) G
  /\ ((G = [] /\ c = []) \/ (c <> [] /\ chained n (G ++ [c]))).

(** Loop invariant for the token budget: [current_length] is the token
    count of the current chunk, and the closed chunks with the current one
    are [budget_ok]. *)
Definition budget_inv (max_tokens n : Z) (st : App.group_state) : Prop :=
  let '(G, c, l) := st in
  l = Py.sum (map App.n_tokens c)
  /\ ((G = [] /\ c = []) \/ (c <> [] /\ budget_ok max_tokens n (G ++ [c]))).

(** The bound on chunk sizes as the specification words it: a chunk over
    the budget is a single sentence that is itself over the budget. *)
Definition single_oversized_only (sentences : list string)
    (max_tokens overlap_sentences : Z) : Prop :=
  forall g, g ∈ App.chunk_groups sentences max_tokens overlap_sentences ->
    App.n_tokens (Py.join " " g) <= max_tokens
    \/ exists s, g = [s] /\ max_tokens < App.n_tokens s.

(** ** Concrete inputs *)

(** A stand-in for the sentence tokenizer: a sentence ends at a full stop
    that is followed by a space, and at the end of the text. *)
Fixpoint period_split (acc : string) (s : string) : list string :=
  match s with
  | EmptyString => if String.eqb acc "" then [] else [acc]
  | String "." (String " " s') => (acc +:+ ".") :: period_split "" s'
  | String c s' => period_split (acc +:+ String c EmptyString) s'
  end.

Definition simple_tokenize (text : string) : list string :=
  period_split "" text.

Definition three_sentences : string :=
  "Alpha is first. Beta is second. Gamma is third.".

(** Stand-ins for the other collaborators. *)
Definition toy_encode (text : string) : Faiss.vector :=
  [inject_Z (App.n_tokens text); 1%Q].

Definition plain_extract (content : string) : Py.result string :=
  Py.Return content.

Definition toy_chain (a b : string) : string := a.

(** A store with one session ["u1"] whose document has a single chunk. *)
Definition one_chunk_doc : App.DocData :=
  {| App.index := {| Faiss.d := 2; Faiss.xb := [toy_encode "Alpha is first."] |};
     App.metadata := {| App.filename := "a.pdf";
                        App.chunks := ["Alpha is first."];
                        App.upload_date := "2024-01-01T00:00:00";
                        App.total_chunks := 1 |} |}.

Definition one_chunk_store : App.State :=
  {| App.user_documents := {[ "u1" := one_chunk_doc ]};
     App.upload_folder := {[ "u1_a.pdf" := "Alpha is first." ]} |}.

(** A store whose session ["u1"] has sixty chunks. *)
Definition sixty_chunk_doc : App.DocData :=
  {| App.index := {| Faiss.d := 2;
                     Faiss.xb := replicate 60 (toy_encode "Alpha is first.") |};
     App.metadata := {| App.filename := "a.pdf";
                        App.chunks := replicate 60 "Alpha is first.";
                        App.upload_date := "2024-01-01T00:00:00";
                        App.total_chunks := 60 |} |}.

Definition sixty_chunk_store : App.State :=
  {| App.user_documents := {[ "u1" := sixty_chunk_doc ]};
     App.upload_folder := {[ "u1_a.pdf" := "Alpha is first." ]} |}.

(** *** Vocabulary for the fusion of [main.py] *)

(** The guard of both loops: [idx != -1 and idx < len(df_chunks)]. *)
Definition valid_label (df : list Main.Row) (idx : Z) : bool :=
  negb (idx =? -1) && (idx <? Py.len df).

(** Score of chunk [c] in a hit list: the score of the last hit with a
    valid label whose row has chunk id [c]; [None] when there is none. *)
Definition hit_step (df : list Main.Row) (c : Z) (acc : option Q)
    (hit : Q * Z) : option Q :=
  if valid_label df hit.2 then
    match Py.getitem df hit.2 with
    | Some row => if Main.chunk_id row =? c then Some hit.1 else acc
    | None => acc
    end
  else acc.

Definition hit_score (df : list Main.Row) (hits : list (Q * Z)) (c : Z)
    : option Q :=
  fold_left (hit_step df c) hits None.

(** [dict] is the union of the two hit lists by chunk id: each id at most
    once; an id is a key exactly when one of the lists scores it; and its
    entry carries the score of either list, [0] for a list without it. *)
Definition fused_view (df : list Main.Row) (primary enhanced : list (Q * Z))
    (dict : Main.Dict) : Prop :=
  NoDup (map fst dict)
  /\ forall c,
       match Main.dict_get c dict with
       | None => hit_score df primary c = None /\ hit_score df enhanced c = None
       | Some e =>
           (is_Some (hit_score df primary c) \/ is_Some (hit_score df enhanced c))
           /\ Main.score_primary e = default 0%Q (hit_score df primary c)
           /\ Main.score_enhanced e = default 0%Q (hit_score df enhanced c)
       end.

(** The index a provider would build from its own embeddings of the chunk
    texts. *)
Definition provider_index (provider : string -> Faiss.vector)
    (df : list Main.Row) : Faiss.IndexFlatIP :=
  let embeddings := map (fun row => provider (Main.chunk_text row)) df in
  {| Faiss.d := App.shape1 embeddings; Faiss.xb := embeddings |}.

(** C1 as the specification words it: each query embedding is searched
    against the index built from the same provider's chunk embeddings. *)
Definition searches_own_index (primary secondary : string -> Faiss.vector)
    (st : Main.State) : Prop :=
  forall query k,
    Main.semantic_search primary secondary st query k
    = ('(distances_primary, indices_primary) ←
         Faiss.search (provider_index primary (Main.df_chunks st))
                      (primary query) k;
       '(distances_enhanced, indices_enhanced) ←
         Faiss.search (provider_index secondary (Main.df_chunks st))
                      (secondary query) k;
       Main.combine (Main.df_chunks st)
                    (zip distances_primary indices_primary)
                    (zip distances_enhanced indices_enhanced) k).

(** Two stand-in providers and a corpus of three chunks whose index holds
    the first provider's embeddings. *)
Definition toy_primary (text : string) : Faiss.vector :=
  [inject_Z (App.n_tokens text); 1%Q].

Definition toy_secondary (text : string) : Faiss.vector :=
  [1%Q; inject_Z (App.n_tokens text)].

Definition corpus_rows : list Main.Row :=
  [ {| Main.chunk_id := 100; Main.theme := "health";
       Main.file_name := "a.pdf"; Main.chunk_text := "Alpha is first." |};
    {| Main.chunk_id := 101; Main.theme := "water";
       Main.file_name := "b.pdf"; Main.chunk_text := "Beta." |};
    {| Main.chunk_id := 102; Main.theme := "energy";
       Main.file_name := "c.pdf"; Main.chunk_text := "Gamma is third of all." |} ].

Definition corpus : Main.State :=
  {| Main.index := provider_index toy_primary corpus_rows;
     Main.df_chunks := corpus_rows |}.



(** Descending order of the keys. *)
Definition desc {A} (key : A -> Q) (a b : A) : Prop := (key b <= key a)%Q.

(** *** Vocabulary and inputs for the further properties *)

(** Entry [e], stored under chunk id [c], is made from the row at its
    position [idx], whose chunk id is [c]. *)
Definition entry_of_row (df : list Main.Row) (c : Z) (e : Main.Entry) : Prop :=
  0 <= Main.idx e
  /\ exists row,
       df !! Z.to_nat (Main.idx e) = Some row
       /\ Main.chunk_id row = c
       /\ Main.e_theme e = Main.theme row
       /\ Main.e_file e = Main.file_name row
       /\ Main.e_chunk_text e = Main.chunk_text row.

(** The chunk id of the row a result points to. *)
Definition result_chunk_id (df : list Main.Row) (r : Main.Result) : option Z :=
  Main.chunk_id <$> df !! Z.to_nat (Main.idx (Main.entry r)).

(** The sources listed in a response body, if it lists any. *)
Definition sources_of (body : App.Body) : list (string * Q) :=
  match body with
  | App.SourcedAnswerBody _ _ sources => sources
  | _ => []
  end.

(** The outcome of uploading a text file for user ["u2"]. *)
(** A disk on which every [file.save] returns. *)
Definition always_saves (path : string) : bool := true.



(** A store with the sessions ["u1"] and ["u10"] and their uploaded files. *)
Definition two_user_store : App.State :=
  {| App.user_documents := {[ "u1" := one_chunk_doc; "u10" := one_chunk_doc ]};
     App.upload_folder := {[ "u1_a.pdf" := "Alpha is first.";
                             "u10_b.pdf" := "Beta is second." ]} |}.

(** A text without a double-quote character: the [replace] chain of
    [clean_text] finds nothing to replace in it. *)
Definition no_double_quote (text : string) : Prop :=
  Py.contains_char (ascii_of_nat 34) text = false.

(** A text that holds the fifteen characters the chain replaces. *)
Definition quoted_call_text : string := "a" +:+ App.quoted_call +:+ "b".

(** * Properties *)

(** ** Tokens of joined sentences *)

Section TokenFacts.
Import Py.

Lemma split_ws_app_space tok s1 s2 :
  length (split_ws tok (s1 +:+ " " +:+ s2))
  = (length (split_ws tok s1) + length (split s2))%nat.
Proof.
  revert tok. induction s1 as [|c s1 IH]; intros tok; simpl.
  - destruct tok; reflexivity.
  - destruct (is_space c).
    + destruct tok; simpl; rewrite IH; reflexivity.
    + apply IH.
Qed.

Lemma n_tokens_join g :
  App.n_tokens (join " " g) = sum (map App.n_tokens g).
Proof.
  unfold App.n_tokens, len.
  induction g as [|x g IH]; [reflexivity|].
  destruct g as [|y g].
  - simpl. lia.
  - change (join " " (x :: y :: g)) with (x +:+ " " +:+ join " " (y :: g)).
    unfold split at 1. rewrite split_ws_app_space.
    rewrite Nat2Z.inj_add. fold (split x).
    change (sum (map (fun s => Z.of_nat (length (split s))) (x :: y :: g)))
      with (Z.of_nat (length (split x))
            + sum (map (fun s => Z.of_nat (length (split s))) (y :: g))).
    rewrite <- IH. reflexivity.
Qed.
End TokenFacts.

(** ** The segmenter *)

Section SegmenterFacts.
Import App.
Variables max_tokens overlap_sentences : Z.

Abbreviation gstep := (group_step max_tokens overlap_sentences).
Abbreviation cstep := (chunk_step max_tokens overlap_sentences).

Lemma gstep_eq G c l s :
  gstep (G, c, l) s
  = if l + n_tokens s <=? max_tokens then (G, c ++ [s], l + n_tokens s)
    else (if Py.truthy c then G ++ [c] else G,
          take_overlap c overlap_sentences ++ [s],
          Py.sum (map n_tokens (take_overlap c overlap_sentences ++ [s]))).
Proof. reflexivity. Qed.

Lemma cstep_eq C c l s :
  cstep (C, c, l) s
  = if l + n_tokens s <=? max_tokens then (C, c ++ [s], l + n_tokens s)
    else (if Py.truthy c then C ++ [Py.join " " c] else C,
          take_overlap c overlap_sentences ++ [s],
          Py.sum (map n_tokens (take_overlap c overlap_sentences ++ [s]))).
Proof. reflexivity. Qed.

Lemma take_overlap_last cur :
  0 <= overlap_sentences ->
  take_overlap cur overlap_sentences = last_sentences overlap_sentences cur.
Proof.
  intros Hov. unfold take_overlap, last_sentences, Py.slice_from, Py.len.
  destruct (Z.eqb_spec overlap_sentences 0) as [->|Hne].
  - simpl. rewrite Nat.sub_0_r, drop_all. reflexivity.
  - destruct (Z.ltb_spec (- overlap_sentences) 0); [|lia].
    f_equal. lia.
Qed.

Lemma length_last_sentences n l :
  0 <= n -> Py.len (last_sentences n l) <= n.
Proof.
  intros Hn. unfold last_sentences, Py.len. rewrite length_drop. lia.
Qed.

(** The string loop is the image of the sentence-list loop. *)
Lemma chunk_step_group_step ss G c l :
  fold_left cstep ss (map (Py.join " ") G, c, l)
  = (let '(G', c', l') := fold_left gstep ss (G, c, l) in
     (map (Py.join " ") G', c', l')).
Proof.
  revert G c l. induction ss as [|s ss IH]; intros G c l; [reflexivity|].
  cbn [fold_left]. rewrite gstep_eq, cstep_eq.
  destruct (l + n_tokens s <=? max_tokens).
  - apply IH.
  - destruct (Py.truthy c).
    + change [Py.join " " c] with (map (Py.join " ") [c]).
      rewrite <- map_app. apply IH.
    + apply IH.
Qed.

Lemma chunk_sentences_groups ss :
  chunk_sentences ss max_tokens overlap_sentences
  = map (Py.join " ") (chunk_groups ss max_tokens overlap_sentences).
Proof.
  unfold chunk_sentences, chunk_groups, group_loop, close_groups.
  pose proof (chunk_step_group_step ss [] [] 0) as H. simpl in H. rewrite H.
  destruct (fold_left gstep ss ([], [], 0)) as [[G c] l].
  destruct (Py.truthy c); [rewrite map_app|]; reflexivity.
Qed.

Lemma truthy_nonempty {A} (l : list A) : l <> [] -> Py.truthy l = true.
Proof. destruct l; [congruence|reflexivity]. Qed.

(** Once the current chunk is non-empty, the chunks closed so far stay,
    and the current chunk is a prefix of the chunk that follows them. *)
Lemma group_loop_extends post G c l :
  c <> [] ->
  exists rest more,
    close_groups (fold_left gstep post (G, c, l)) = G ++ (c ++ rest) :: more.
Proof.
  revert G c l. induction post as [|s post IH]; intros G c l Hc.
  - exists [], []. simpl. rewrite truthy_nonempty, app_nil_r by done. done.
  - cbn [fold_left]. rewrite gstep_eq.
    destruct (l + n_tokens s <=? max_tokens).
    + destruct (IH G (c ++ [s]) (l + n_tokens s)) as (rest & more & E).
      { by destruct c. }
      exists (s :: rest), more. rewrite E, <- app_assoc. done.
    + rewrite truthy_nonempty by done.
      edestruct (IH (G ++ [c]) (take_overlap c overlap_sentences ++ [s]))
        as (rest & more & E).
      { by destruct (take_overlap c overlap_sentences). }
      eexists [], _. rewrite E, app_nil_r, <- app_assoc. done.
Qed.

(** Every sentence read so far is in a closed chunk or in the current one. *)
Lemma group_loop_keeps ss G c l :
  let '(G', c', _) := fold_left gstep ss (G, c, l) in
  ss ++ (concat G ++ c) ⊆+ concat G' ++ c'.
Proof.
  revert G c l. induction ss as [|s ss IH]; intros G c l.
  - simpl. reflexivity.
  - cbn [fold_left]. rewrite gstep_eq.
    destruct (l + n_tokens s <=? max_tokens).
    + specialize (IH G (c ++ [s]) (l + n_tokens s)).
      destruct (fold_left gstep ss _) as [[G' c'] l'].
      etrans; [|exact IH].
      apply Permutation_submseteq.
      rewrite !app_assoc. rewrite <- Permutation_cons_append.
      done.
    + set (ov := take_overlap c overlap_sentences).
      set (G1 := if Py.truthy c then G ++ [c] else G).
      assert (concat G1 = concat G ++ c) as EG.
      { subst G1. destruct c; simpl; [by rewrite app_nil_r|].
        rewrite concat_app. simpl. by rewrite app_nil_r. }
      specialize (IH G1 (ov ++ [s]) (Py.sum (map n_tokens (ov ++ [s])))).
      destruct (fold_left gstep ss _) as [[G' c'] l'].
      etrans; [|exact IH].
      rewrite EG.
      change ((s :: ss) ++ concat G ++ c) with (s :: (ss ++ (concat G ++ c))).
      rewrite (Permutation_cons_append (ss ++ _) s).
      rewrite <- !app_assoc.
      apply submseteq_app; [done|].
      apply submseteq_app; [done|].
      apply submseteq_app; [done|].
      apply submseteq_inserts_l. done.
Qed.

Lemma concat_close_groups G c l :
  concat (close_groups (G, c, l)) = concat G ++ c.
Proof.
  unfold close_groups. destruct c; simpl; [by rewrite app_nil_r|].
  rewrite concat_app. simpl. by rewrite app_nil_r.
Qed.

Lemma chunk_groups_keep_sentences ss :
  ss ⊆+ concat (chunk_groups ss max_tokens overlap_sentences).
Proof.
  unfold chunk_groups, group_loop.
  pose proof (group_loop_keeps ss [] [] 0) as H.
  destruct (fold_left gstep ss _) as [[G c] l].
  rewrite concat_close_groups. simpl in H. by rewrite app_nil_r in H.
Qed.

Lemma chained_snoc L g c :
  chained overlap_sentences (L ++ [g]) ->
  seeded_by overlap_sentences g c ->
  chained overlap_sentences ((L ++ [g]) ++ [c]).
Proof.
  intros HL Hs i a b Ha Hb.
  destruct (decide (S i < length (L ++ [g]))%nat) as [Hlt|Hge].
  - rewrite lookup_app_l in Ha by lia. rewrite lookup_app_l in Hb by lia.
    eauto.
  - apply lookup_lt_Some in Hb as Hb'. rewrite length_app in Hb'. simpl in Hb'.
    assert (S i = length (L ++ [g])) as Ei by lia.
    rewrite lookup_app_r in Hb by lia.
    replace (S i - length (L ++ [g]))%nat with 0%nat in Hb by lia.
    simpl in Hb. injection Hb as <-.
    rewrite lookup_app_l in Ha by lia.
    rewrite length_app in Ei. simpl in Ei.
    rewrite lookup_app_r in Ha by lia.
    replace (i - length L)%nat with 0%nat in Ha by lia.
    simpl in Ha. injection Ha as <-. done.
Qed.

Lemma chained_grow L c x :
  chained overlap_sentences (L ++ [c]) ->
  chained overlap_sentences (L ++ [c ++ [x]]).
Proof.
  intros HL i a b Ha Hb.
  apply lookup_lt_Some in Hb as Hb'. rewrite length_app in Hb'. simpl in Hb'.
  rewrite lookup_app_l in Ha by lia.
  destruct (decide (S i < length L)%nat) as [Hlt|Hge].
  - rewrite lookup_app_l in Hb by lia.
    apply (HL i); by rewrite lookup_app_l by lia.
  - rewrite lookup_app_r in Hb by lia.
    replace (S i - length L)%nat with 0%nat in Hb by lia.
    simpl in Hb. injection Hb as <-.
    destruct (HL i a c) as (s & rest & ->).
    + by rewrite lookup_app_l by lia.
    + rewrite lookup_app_r by lia.
      by replace (S i - length L)%nat with 0%nat by lia.
    + exists s, (rest ++ [x]). by rewrite <- app_assoc.
Qed.

Lemma chain_inv_step st s :
  0 <= overlap_sentences -> chain_inv overlap_sentences st -> chain_inv overlap_sentences (gstep st s).
Proof.
  intros Hov. destruct st as [[G c] l]. intros [HG Hc].
  rewrite gstep_eq. destruct (l + n_tokens s <=? max_tokens).
  - split; [done|]. right. split; [by destruct c|].
    destruct Hc as [[-> ->]|[Hne Hch]].
    + intros i a b Ha Hb. by destruct i.
    + by apply chained_grow.
  - rewrite take_overlap_last by done.
    destruct Hc as [[-> ->]|[Hne Hch]].
    + simpl. split; [done|]. right. split; [done|].
      intros i a b Ha Hb. by destruct i.
    + rewrite truthy_nonempty by done. split.
      * apply Forall_app. split; [done|]. by constructor.
      * right. split; [by destruct (last_sentences _ _)|].
        apply chained_snoc; [done|]. by exists s, [].
Qed.

Lemma chain_inv_loop ss st :
  0 <= overlap_sentences -> chain_inv overlap_sentences st -> chain_inv overlap_sentences (fold_left gstep ss st).
Proof.
  intros Hov. revert st. induction ss as [|s ss IH]; intros st Hst; [done|].
  cbn [fold_left]. apply IH. by apply chain_inv_step.
Qed.

Lemma chunk_groups_chained ss :
  0 <= overlap_sentences ->
  Forall (fun g => g <> []) (chunk_groups ss max_tokens overlap_sentences)
  /\ chained overlap_sentences (chunk_groups ss max_tokens overlap_sentences).
Proof.
  intros Hov. unfold chunk_groups, group_loop.
  assert (chain_inv overlap_sentences ([], [], 0)) as H0 by (split; [constructor|by left]).
  pose proof (chain_inv_loop ss _ Hov H0) as H.
  destruct (fold_left gstep ss _) as [[G c] l]. destruct H as [HG Hc].
  unfold close_groups. destruct Hc as [[-> ->]|[Hne Hch]].
  - simpl. split; [constructor|]. intros i a b Ha. by destruct i.
  - rewrite truthy_nonempty by done. split; [|done].
    apply Forall_app. split; [done|]. by constructor.
Qed.

Lemma sum_map_snoc (f : string -> Z) c x :
  Py.sum (map f (c ++ [x])) = Py.sum (map f c) + f x.
Proof.
  unfold Py.sum. induction c as [|y c IH]; simpl; [lia|].
  rewrite IH. lia.
Qed.

Lemma seed_after_agree L1 L2 i g :
  (forall j, (j < i)%nat -> L1 !! j = L2 !! j) ->
  seed_after max_tokens overlap_sentences L1 i g ->
  seed_after max_tokens overlap_sentences L2 i g.
Proof.
  intros Hagree (prev & s & Eg & Hover & Hprev). exists prev, s.
  split; [done|]. split; [done|].
  destruct i as [|j]; [done|]. rewrite <- Hagree by lia. done.
Qed.

Lemma budget_ok_grow L c x :
  budget_ok max_tokens overlap_sentences (L ++ [c]) ->
  Py.sum (map n_tokens (c ++ [x])) <= max_tokens ->
  budget_ok max_tokens overlap_sentences (L ++ [c ++ [x]]).
Proof.
  intros HL Hfit i g Hg.
  destruct (decide (i < length L)%nat) as [Hlt|Hge].
  - rewrite lookup_app_l in Hg by lia.
    destruct (HL i g) as [Hle|Hseed]; [by rewrite lookup_app_l by lia|by left|].
    right. eapply seed_after_agree; [|exact Hseed].
    intros j Hj. by rewrite !lookup_app_l by lia.
  - apply lookup_lt_Some in Hg as Hi. rewrite length_app in Hi. simpl in Hi.
    rewrite lookup_app_r in Hg by lia.
    replace (i - length L)%nat with 0%nat in Hg by lia.
    simpl in Hg. injection Hg as <-. by left.
Qed.

Lemma budget_ok_seed L c s :
  budget_ok max_tokens overlap_sentences (L ++ [c]) ->
  max_tokens < Py.sum (map n_tokens c) + n_tokens s ->
  budget_ok max_tokens overlap_sentences
    ((L ++ [c]) ++ [last_sentences overlap_sentences c ++ [s]]).
Proof.
  intros HL Hover i g Hg.
  destruct (decide (i < length (L ++ [c]))%nat) as [Hlt|Hge].
  - rewrite lookup_app_l in Hg by lia.
    destruct (HL i g Hg) as [Hle|Hseed]; [by left|].
    right. eapply seed_after_agree; [|exact Hseed].
    intros j Hj. symmetry. apply lookup_app_l. lia.
  - apply lookup_lt_Some in Hg as Hi. rewrite length_app in Hi. simpl in Hi.
    rewrite lookup_app_r in Hg by lia.
    replace (i - length (L ++ [c]))%nat with 0%nat in Hg by lia.
    simpl in Hg. injection Hg as <-. right. exists c, s.
    split; [done|]. split; [done|].
    assert (i = S (length L)) as ->.
    { rewrite !length_app in Hi, Hge. simpl in Hi, Hge. lia. }
    rewrite lookup_app_l by (rewrite length_app; simpl; lia).
    rewrite lookup_app_r by lia. by rewrite Nat.sub_diag.
Qed.

Lemma budget_ok_first g :
  Py.sum (map n_tokens g) <= max_tokens
  \/ (exists s, g = [s] /\ max_tokens < n_tokens s) ->
  budget_ok max_tokens overlap_sentences [g].
Proof.
  intros Hg i g' Hi. destruct i as [|i]; [|by destruct i].
  injection Hi as <-. destruct Hg as [Hle|(s & -> & Hover)]; [by left|].
  right. exists [], s. split; [done|]. split; [|done].
  unfold Py.sum. simpl. lia.
Qed.

Lemma budget_inv_step st s :
  0 <= overlap_sentences ->
  budget_inv max_tokens overlap_sentences st ->
  budget_inv max_tokens overlap_sentences (gstep st s).
Proof.
  intros Hov. destruct st as [[G c] l]. intros (Hl & Hc).
  rewrite gstep_eq.
  destruct (Z.leb_spec (l + n_tokens s) max_tokens) as [Hle|Hgt].
  - split; [by rewrite sum_map_snoc, Hl|]. right.
    split; [by destruct c|].
    destruct Hc as [[-> ->]|[Hne Hok]].
    + apply budget_ok_first. left. rewrite Hl in Hle.
      unfold Py.sum in *. simpl in *. lia.
    + apply budget_ok_grow; [done|]. rewrite sum_map_snoc. lia.
  - rewrite take_overlap_last by done. split; [done|]. right.
    split; [by destruct (last_sentences overlap_sentences c)|].
    destruct Hc as [[-> ->]|[Hne Hok]].
    + apply budget_ok_first. right. exists s. split; [done|].
      rewrite Hl in Hgt. unfold Py.sum in Hgt. simpl in Hgt. lia.
    + rewrite truthy_nonempty by done.
      apply budget_ok_seed; [done|]. lia.
Qed.

Lemma budget_inv_loop ss st :
  0 <= overlap_sentences ->
  budget_inv max_tokens overlap_sentences st ->
  budget_inv max_tokens overlap_sentences (fold_left gstep ss st).
Proof.
  intros Hov. revert st. induction ss as [|s ss IH]; intros st Hst; [done|].
  cbn [fold_left]. apply IH. by apply budget_inv_step.
Qed.

Lemma chunk_groups_budget ss :
  0 <= overlap_sentences ->
  budget_ok max_tokens overlap_sentences
            (chunk_groups ss max_tokens overlap_sentences).
Proof.
  intros Hov. unfold chunk_groups, group_loop.
  assert (budget_inv max_tokens overlap_sentences ([], [], 0)) as H0.
  { split; [done|]. by left. }
  pose proof (budget_inv_loop ss _ Hov H0) as H.
  destruct (fold_left gstep ss _) as [[G c] l]. destruct H as (_ & Hc).
  unfold close_groups. destruct Hc as [[-> ->]|[Hne Hok]].
  - intros i g Hg. by destruct i.
  - by rewrite truthy_nonempty.
Qed.
End SegmenterFacts.

Lemma prefix_append (x y : string) : String.prefix x (x +:+ y) = true.
Proof.
  induction x as [|c x IH]; simpl; [by destruct y|].
  destruct (ascii_dec c c); [done|congruence].
Qed.

Lemma prefix_join_head (x : string) (rest : list string) :
  String.prefix x (Py.join " " (x :: rest)) = true.
Proof.
  destruct rest as [|y rest].
  - simpl. induction x as [|c x IH]; simpl; [done|].
    destruct (ascii_dec c c); [done|congruence].
  - apply prefix_append.
Qed.

(** ** Claims about the segmenter *)

(** C3, as stated, fails: with [max_tokens = 6] and [overlap_sentences = 2]
    the second chunk of three three-token sentences holds all three of them,
    nine tokens in all. *)
Lemma three_sentence_chunk_over_budget :
  ~ single_oversized_only (simple_tokenize three_sentences) 6 2.
Proof.
  intros H.
  destruct (H ["Alpha is first."; "Beta is second."; "Gamma is third."])
    as [Hle|(s & Hs & _)].
  - vm_compute. right. left.
  - vm_compute in Hle. by apply Hle.
  - discriminate Hs.
Qed.

(** C3, amended: with a non-negative [overlap_sentences], the chunk at any
    position [i] is the join of a group of sentences that either stays within
    [max_tokens] or is an overflow seed: the last [overlap_sentences]
    sentences (all of them when there are fewer) of the chunk at position
    [i - 1], followed by the one sentence that did not fit after that chunk,
    that is whose tokens added to those of that chunk exceed [max_tokens];
    for the first chunk there is no chunk before it and the seed is the
    sentence alone. With [overlap_sentences = 0] a chunk over the budget is
    a single sentence. *)
Theorem chunk_within_budget_or_seed
    (sent_tokenize : string -> list string) (text : string)
    (max_tokens overlap_sentences : Z) (i : nat) (c : string) :
  0 <= overlap_sentences ->
  App.chunk_text sent_tokenize text max_tokens overlap_sentences !! i = Some c ->
  exists g,
    App.chunk_groups (sent_tokenize text) max_tokens overlap_sentences !! i
    = Some g
    /\ c = Py.join " " g
    /\ (App.n_tokens c <= max_tokens
        \/ exists prev s,
             g = last_sentences overlap_sentences prev ++ [s]
             /\ Py.len (last_sentences overlap_sentences prev)
                <= overlap_sentences
             /\ max_tokens < App.n_tokens (Py.join " " prev) + App.n_tokens s
             /\ match i with
                | O => prev = []
                | S j =>
                    App.chunk_groups (sent_tokenize text) max_tokens
                      overlap_sentences !! j = Some prev
                    /\ App.chunk_text sent_tokenize text max_tokens
                         overlap_sentences !! j = Some (Py.join " " prev)
                end)
    /\ (overlap_sentences = 0 -> max_tokens < App.n_tokens c -> g = [c]).
Proof.
  intros Hov Hc. unfold App.chunk_text in *.
  rewrite chunk_sentences_groups in *.
  rewrite list_lookup_fmap in Hc.
  destruct (App.chunk_groups (sent_tokenize text) max_tokens overlap_sentences
              !! i) as [g|] eqn:Hg; [|done].
  injection Hc as <-. exists g. split; [done|]. split; [done|].
  destruct (chunk_groups_budget max_tokens overlap_sentences
              (sent_tokenize text) Hov i g Hg)
    as [Hle|(prev & s & Eg & Hover & Hprev)].
  - rewrite n_tokens_join. split; [by left|]. lia.
  - split.
    + right. exists prev, s. split; [done|].
      split; [by apply length_last_sentences|].
      split; [by rewrite n_tokens_join|].
      destruct i as [|j]; [done|]. split; [done|].
      rewrite list_lookup_fmap, Hprev. done.
    + intros -> _. rewrite Eg.
      assert (last_sentences 0 prev = []) as ->.
      { unfold last_sentences. simpl. rewrite Nat.sub_0_r. apply drop_all. }
      done.
Qed.

Lemma chunk_within_budget_or_seed_witness :
  exists g,
    App.chunk_groups (simple_tokenize three_sentences) 6 2 !! 1%nat = Some g
    /\ "Alpha is first. Beta is second. Gamma is third." = Py.join " " g
    /\ (App.n_tokens "Alpha is first. Beta is second. Gamma is third." <= 6
        \/ exists prev s,
             g = last_sentences 2 prev ++ [s]
             /\ Py.len (last_sentences 2 prev) <= 2
             /\ 6 < App.n_tokens (Py.join " " prev) + App.n_tokens s
             /\ (App.chunk_groups (simple_tokenize three_sentences) 6 2 !! 0%nat
                 = Some prev
                 /\ App.chunk_text simple_tokenize three_sentences 6 2 !! 0%nat
                    = Some (Py.join " " prev)))
    /\ (2 = 0 -> 6 < App.n_tokens "Alpha is first. Beta is second. Gamma is third."
        -> g = ["Alpha is first. Beta is second. Gamma is third."]).
Proof.
  apply (chunk_within_budget_or_seed simple_tokenize three_sentences 6 2 1).
  - lia.
  - reflexivity.
Defined.

(** C6: the chunks are the joins of groups of sentences, and the input
    sentences form a sub-multiset of the sentences of all groups. *)
Theorem chunks_keep_every_sentence
    (sent_tokenize : string -> list string) (text : string)
    (max_tokens overlap_sentences : Z) :
  App.chunk_text sent_tokenize text max_tokens overlap_sentences
  = map (Py.join " ")
        (App.chunk_groups (sent_tokenize text) max_tokens overlap_sentences)
  /\ sent_tokenize text
     ⊆+ concat (App.chunk_groups (sent_tokenize text) max_tokens overlap_sentences).
Proof.
  split.
  - apply chunk_sentences_groups.
  - apply chunk_groups_keep_sentences.
Qed.

(** C5: let the sentence [s] overflow the non-empty current chunk [cur]
    (the state after the sentences [pre] before it). Then [cur] is closed as
    the next chunk of the output, and the chunk after it begins with the
    last [overlap_sentences] sentences of [cur] followed by [s]. In
    particular, when the output has two chunks and [overlap_sentences = 1],
    the second chunk begins with the last sentence of the first. *)
Theorem overflow_seeds_next_chunk
    (sent_tokenize : string -> list string) (text : string)
    (max_tokens overlap_sentences : Z) :
  0 <= overlap_sentences ->
  let groups :=
    App.chunk_groups (sent_tokenize text) max_tokens overlap_sentences in
  App.chunk_text sent_tokenize text max_tokens overlap_sentences
  = map (Py.join " ") groups
  /\ (forall pre s post G cur len,
        sent_tokenize text = pre ++ s :: post ->
        App.group_loop max_tokens overlap_sentences pre = (G, cur, len) ->
        max_tokens < len + App.n_tokens s ->
        cur <> [] ->
        groups !! length G = Some cur
        /\ exists rest,
             groups !! S (length G)
             = Some (last_sentences overlap_sentences cur ++ s :: rest))
  /\ (overlap_sentences = 1 ->
      forall g1 g2, groups = [g1; g2] ->
        exists x rest,
          last g1 = Some x /\ g2 = x :: rest
          /\ String.prefix x (Py.join " " g2) = true).
Proof.
  intros Hov groups. split; [apply chunk_sentences_groups|]. split.
  - intros pre s post G cur len Etext Epre Hover Hcur.
    subst groups. rewrite Etext.
    unfold App.chunk_groups, App.group_loop in *.
    rewrite fold_left_app, Epre. cbn [fold_left]. rewrite gstep_eq.
    destruct (Z.leb_spec (len + App.n_tokens s) max_tokens) as [?|_]; [lia|].
    rewrite truthy_nonempty, take_overlap_last by done.
    edestruct (group_loop_extends max_tokens overlap_sentences post (G ++ [cur])
                 (last_sentences overlap_sentences cur ++ [s])) as (rest & more & ->).
    { by destruct (last_sentences overlap_sentences cur). }
    rewrite <- !app_assoc. split.
    + rewrite lookup_app_r by lia. by rewrite Nat.sub_diag.
    + exists rest. rewrite lookup_app_r by lia.
      by replace (S (length G) - length G)%nat with 1%nat by lia.
  - intros -> g1 g2 Eg.
    destruct (chunk_groups_chained max_tokens 1 (sent_tokenize text) Hov)
      as [Hne Hch].
    fold groups in Hne, Hch. rewrite Eg in Hne, Hch.
    destruct (Hch 0%nat g1 g2 eq_refl eq_refl) as (s & rest & ->).
    apply Forall_cons in Hne as [Hg1 _].
    destruct (last g1) as [x|] eqn:El; [|by apply last_None in El].
    apply last_Some in El as [l' ->].
    assert (last_sentences 1 (l' ++ [x]) = [x]) as ->.
    { unfold last_sentences. rewrite length_app.
      replace (length l' + length [x] - Z.to_nat 1)%nat with (length l')
        by (simpl; lia).
      by rewrite drop_app_length. }
    exists x, (s :: rest). split; [done|]. split; [done|].
    apply prefix_join_head.
Qed.

Lemma overflow_seeds_next_chunk_witness :
  0 <= 1
  /\ App.chunk_groups (simple_tokenize three_sentences) 6 1 !! 0%nat
     = Some ["Alpha is first."; "Beta is second."]
  /\ exists rest,
       App.chunk_groups (simple_tokenize three_sentences) 6 1 !! 1%nat
       = Some (last_sentences 1 ["Alpha is first."; "Beta is second."]
               ++ "Gamma is third." :: rest).
Proof.
  split; [lia|].
  apply (proj1 (proj2 (overflow_seeds_next_chunk simple_tokenize three_sentences
                         6 1 ltac:(lia)))
           ["Alpha is first."; "Beta is second."] "Gamma is third." []
           [] ["Alpha is first."; "Beta is second."] 6).
  - reflexivity.
  - reflexivity.
  - vm_compute. reflexivity.
  - discriminate.
Defined.

(** ** Claims about the document store of [app.py] *)

Section StoreFacts.
Variable sent_tokenize : string -> list string.
Variable encode : string -> Faiss.vector.
Variables extract_pdf extract_docx : string -> Py.result string.
Variables now uuid4 : string.
Variable save_ok : string -> bool.
Variables qa_chain summary_chain : string -> string -> string.

Abbreviation create_user_index :=
  (App.create_user_index sent_tokenize encode extract_pdf extract_docx now).
Abbreviation upload_document :=
  (App.upload_document sent_tokenize encode extract_pdf extract_docx now uuid4
     save_ok).

Lemma create_user_index_raise st user_id file_path filename e st' :
  create_user_index st user_id file_path filename = (Py.Raise e, st') ->
  st' = st.
Proof.
  unfold App.create_user_index.
  destruct (App.build_user_index _ _ _ _ _ _ _ _); congruence.
Qed.

(** C7: an ingestion that raises leaves the whole state, and so the session
    table, as it was; an unsupported file format and an empty segmentation
    both raise; and a 500 response of the upload route comes with the
    session table unchanged. *)
Theorem failed_ingestion_keeps_sessions
    (st : App.State) (user_id file_path filename : string) :
  (forall e st',
     create_user_index st user_id file_path filename = (Py.Raise e, st') ->
     st' = st /\ App.user_documents st' !! user_id = App.user_documents st !! user_id)
  /\ (Py.endswith filename ".pdf" = false ->
      Py.endswith filename ".docx" = false ->
      create_user_index st user_id file_path filename
      = (Py.Raise (Py.ValueError "Unsupported file format"), st))
  /\ (forall text,
        App.extract_text extract_pdf extract_docx st file_path filename
        = Py.Return text ->
        App.chunk_text sent_tokenize (App.clean_text text) 300 2 = [] ->
        create_user_index st user_id file_path filename
        = (Py.Raise (Py.ValueError "No text extracted from document"), st))
  /\ (forall file form_user_id body st',
        upload_document st file form_user_id = ((body, 500), st') ->
        App.user_documents st' = App.user_documents st).
Proof.
  split; [|split; [|split]].
  - intros e st' H. apply create_user_index_raise in H. by subst.
  - intros Hpdf Hdocx. unfold App.create_user_index, App.build_user_index,
      App.extract_text. by rewrite Hpdf, Hdocx.
  - intros text Htext Hchunks.
    unfold App.create_user_index, App.build_user_index.
    rewrite Htext. simpl. by rewrite Hchunks.
  - intros file form_user_id body st' H. unfold App.upload_document in H.
    destruct file as [[fname content]|]; [|by inversion H].
    destruct (String.eqb fname ""); [by inversion H|].
    cbv zeta in H. destruct (negb (save_ok _)); [by inversion H|].
    match type of H with
    | context [App.create_user_index _ _ _ _ _ ?s ?u ?fp ?fn] =>
        destruct (App.create_user_index sent_tokenize encode extract_pdf
                    extract_docx now s u fp fn) as [[m|e] st1] eqn:E
    end.
    + by inversion H.
    + apply create_user_index_raise in E. inversion H. subst.
      by destruct (Py.contains_char _ _).
Qed.
End StoreFacts.

Lemma failed_ingestion_keeps_sessions_witness :
  App.create_user_index simple_tokenize toy_encode plain_extract plain_extract
    "2024-01-02T00:00:00" one_chunk_store "u1" "u1_b.txt" "b.txt"
  = (Py.Raise (Py.ValueError "Unsupported file format"), one_chunk_store).
Proof.
  apply (failed_ingestion_keeps_sessions simple_tokenize toy_encode
           plain_extract plain_extract "2024-01-02T00:00:00" "id"
           always_saves one_chunk_store "u1" "u1_b.txt" "b.txt"); reflexivity.
Defined.

Section SessionFacts.
Variable encode : string -> Faiss.vector.
Variables qa_chain summary_chain : string -> string -> string.

Lemma missing_some (s : string) : s <> "" -> App.missing (Some s) = false.
Proof. intros Hs. simpl. by apply String.eqb_neq. Qed.

(** C8: deleting an existing session succeeds and removes it; after that a
    question, a summary request and a metadata request for the same id are
    answered 404, and a second delete is answered 404 and changes nothing. The id and the question are non-empty,
    as the routes require of a request before they look the session up. *)
Theorem deleted_session_not_found
    (st : App.State) (user_id question : string) :
  user_id <> "" ->
  question <> "" ->
  is_Some (App.user_documents st !! user_id) ->
  exists st1,
    App.delete_user_document st user_id
    = ((App.MessageBody "Document deleted successfully", 200), st1)
    /\ App.user_documents st1 !! user_id = None
    /\ App.ask_question encode qa_chain st1 (Some user_id) (Some question)
       = (App.ErrorBody "Document not found. Please upload first.", 404)
    /\ App.generate_summary summary_chain st1 (Some user_id)
       = (App.ErrorBody "Document not found", 404)
    /\ App.get_user_document_info st1 user_id
       = (App.ErrorBody "Document not found", 404)
    /\ App.delete_user_document st1 user_id
       = ((App.ErrorBody "Document not found", 404), st1).
Proof.
  intros Hid Hq Hin. eexists. split.
  - unfold App.delete_user_document. by rewrite bool_decide_true.
  - cbn [App.user_documents].
    split; [apply lookup_delete_eq|]. split; [|split; [|split]].
    + unfold App.ask_question. rewrite !missing_some by done.
      cbn [orb default App.user_documents]. rewrite lookup_delete_eq.
      rewrite bool_decide_false; [done|]. by intros [? ?].
    + unfold App.generate_summary. rewrite missing_some by done.
      cbv zeta. cbn [default from_option id App.user_documents].
      by rewrite lookup_delete_eq.
    + unfold App.get_user_document_info. cbn [App.user_documents].
      by rewrite lookup_delete_eq.
    + unfold App.delete_user_document. cbn [App.user_documents].
      rewrite lookup_delete_eq.
      rewrite bool_decide_false; [done|]. by intros [? ?].
Qed.

(** C10: the summary of an existing session is generated from the join of
    the first 50 chunks only, and the response reports the number of chunks
    used, [min 50 (len chunks)], next to the total number of chunks. *)
Theorem summary_reads_first_50_chunks
    (st : App.State) (user_id : string) (doc_data : App.DocData) :
  user_id <> "" ->
  App.user_documents st !! user_id = Some doc_data ->
  let chunks := App.chunks (App.metadata doc_data) in
  let filename := App.filename (App.metadata doc_data) in
  App.generate_summary summary_chain st (Some user_id)
  = (App.SummaryBody
       (summary_chain (Py.join (App.newline +:+ App.newline) (take 50 chunks))
                      filename)
       filename (Z.min 50 (Py.len chunks)) (Py.len chunks), 200).
Proof.
  intros Hid Hdoc chunks filename. unfold App.generate_summary.
  rewrite missing_some by done. cbv zeta. cbn [default from_option id]. rewrite Hdoc.
  fold chunks filename. unfold Py.slice_to, Py.len.
  destruct (Z.gtb_spec (Z.of_nat (length chunks)) 50) as [Hgt|Hle].
  - cbn [Z.ltb Z.compare]. rewrite Z.min_l by lia.
    change (Z.to_nat 50) with 50%nat.
    rewrite length_take. do 3 f_equal. lia.
  - rewrite take_ge by lia. do 3 f_equal. lia.
Qed.
End SessionFacts.

Lemma deleted_session_not_found_witness :
  exists st1,
    App.delete_user_document one_chunk_store "u1"
    = ((App.MessageBody "Document deleted successfully", 200), st1)
    /\ App.user_documents st1 !! "u1" = None
    /\ App.ask_question toy_encode toy_chain st1 (Some "u1") (Some "Who is first?")
       = (App.ErrorBody "Document not found. Please upload first.", 404)
    /\ App.generate_summary toy_chain st1 (Some "u1")
       = (App.ErrorBody "Document not found", 404)
    /\ App.get_user_document_info st1 "u1"
       = (App.ErrorBody "Document not found", 404)
    /\ App.delete_user_document st1 "u1"
       = ((App.ErrorBody "Document not found", 404), st1).
Proof.
  apply (deleted_session_not_found toy_encode toy_chain toy_chain
           one_chunk_store "u1" "Who is first?").
  - discriminate.
  - discriminate.
  - exists one_chunk_doc. reflexivity.
Defined.

Lemma summary_reads_first_50_chunks_witness :
  App.generate_summary toy_chain sixty_chunk_store (Some "u1")
  = (App.SummaryBody
       (toy_chain (Py.join (App.newline +:+ App.newline)
                     (take 50 (replicate 60 "Alpha is first."))) "a.pdf")
       "a.pdf" (Z.min 50 (Py.len (replicate 60 "Alpha is first.")))
       (Py.len (replicate 60 "Alpha is first.")), 200).
Proof.
  apply (summary_reads_first_50_chunks toy_chain sixty_chunk_store "u1"
           sixty_chunk_doc).
  - discriminate.
  - reflexivity.
Defined.

(** ** Claim about the search of [app.py] *)

(** C2 fails in [app.py]: on a session with one chunk the search with
    [k = 5] returns five results, four of them with position [-1] and the
    text of the last chunk, where the claim asks for [min 5 1 = 1] result
    with a position in [0, 1). *)
Theorem search_returns_padding_slots :
  exists results,
    App.semantic_search toy_encode one_chunk_store "u1" "Alpha" 5
    = Py.Return results
    /\ Py.len results = 5
    /\ Z.min 5 (Py.len (App.chunks (App.metadata one_chunk_doc))) = 1
    /\ map App.chunk_index results = [0; -1; -1; -1; -1]
    /\ map App.chunk_text_of results = replicate 5 "Alpha is first.".
Proof. eexists. split; [vm_compute; reflexivity|]. repeat split. Qed.

(** ** [sorted(..., reverse=True)] and the top of its result *)

Section SortedFacts.
Context {A : Type} (key : A -> Q).

Lemma insert_desc_perm x l : Py.insert_desc key x l ≡ₚ x :: l.
Proof.
  induction l as [|y l IH]; simpl; [done|].
  destruct (Qle_bool (key y) (key x)); [done|].
  rewrite IH. apply Permutation_swap.
Qed.

Lemma sorted_desc_perm l : Py.sorted_desc key l ≡ₚ l.
Proof.
  induction l as [|x l IH]; simpl; [done|].
  by rewrite insert_desc_perm, IH.
Qed.

Lemma insert_desc_sorted x l :
  StronglySorted (desc key) l ->
  StronglySorted (desc key) (Py.insert_desc key x l).
Proof.
  induction 1 as [|y l Hs IH Hy]; simpl.
  - repeat constructor.
  - destruct (Qle_bool (key y) (key x)) eqn:E.
    + apply Qle_bool_iff in E. constructor; [by constructor|].
      constructor; [exact E|].
      eapply Forall_impl; [exact Hy|]. unfold desc. intros b Hb.
      by apply Qle_trans with (key y).
    + constructor; [done|].
      rewrite insert_desc_perm. constructor; [|done].
      unfold desc. destruct (Qlt_le_dec (key x) (key y)) as [Hlt|Hle].
      * by apply Qlt_le_weak.
      * apply Qle_bool_iff in Hle. congruence.
Qed.

Lemma sorted_desc_sorted l : StronglySorted (desc key) (Py.sorted_desc key l).
Proof.
  induction l as [|x l IH]; simpl; [constructor|].
  by apply insert_desc_sorted.
Qed.

End SortedFacts.

(** ** The FAISS model returns, and its labels are positions or [-1] *)

Lemma knn_labels ix q k : Forall (fun hit => -1 <= hit.2) (Faiss.knn ix q k).
Proof.
  unfold Faiss.knn. apply Forall_app. split.
  - apply Forall_take. rewrite sorted_desc_perm. unfold Faiss.scan.
    apply Forall_forall. intros hit Hhit.
    apply elem_of_lookup_imap_1 in Hhit as (i & v & -> & _). simpl. lia.
  - apply Forall_replicate. simpl. lia.
Qed.

Lemma search_returns ix q k :
  Faiss.has_dim (Faiss.d ix) q = true ->
  0 < k ->
  Faiss.search ix q k
  = Py.Return ((Faiss.knn ix q (Z.to_nat k)).*1, (Faiss.knn ix q (Z.to_nat k)).*2).
Proof.
  intros Hd Hk. unfold Faiss.search. rewrite Hd. simpl.
  destruct (Z.ltb_spec 0 k); [done|lia].
Qed.

(** A hit with a position scores the query against the vector stored there. *)
Lemma knn_hit ix q k score idx :
  (score, idx) ∈ Faiss.knn ix q k -> idx <> -1 ->
  exists v, Faiss.xb ix !! Z.to_nat idx = Some v
            /\ score = Faiss.inner_product q v.
Proof.
  unfold Faiss.knn. intros Hin Hidx.
  apply elem_of_app in Hin as [Hin|Hin].
  - apply elem_of_take in Hin as (i & Hin%list_elem_of_lookup_2 & _).
    rewrite sorted_desc_perm in Hin. unfold Faiss.scan in Hin.
    apply elem_of_lookup_imap_1 in Hin as (j & v & [= -> ->] & Hv).
    exists v. by rewrite Nat2Z.id.
  - apply elem_of_replicate_inv in Hin. by injection Hin as _ ->.
Qed.

(** ** The dict [combined_results] *)

Lemma dict_get_None k dict : Main.dict_get k dict = None <-> k ∉ map fst dict.
Proof.
  induction dict as [|[k' v] dict IH]; simpl.
  - split; [intros _; apply not_elem_of_nil|done].
  - rewrite not_elem_of_cons. destruct (Z.eqb_spec k' k) as [->|Hne].
    + split; [done|]. by intros [? _].
    + rewrite IH. split; [by split|by intros [_ ?]].
Qed.

Lemma dict_get_set_eq k v dict :
  Main.dict_get k (Main.dict_set k v dict) = Some v.
Proof.
  induction dict as [|[k' v'] dict IH]; simpl.
  - by rewrite Z.eqb_refl.
  - destruct (Z.eqb_spec k' k) as [->|Hne]; simpl.
    + by rewrite Z.eqb_refl.
    + destruct (Z.eqb_spec k' k); [done|]. exact IH.
Qed.

Lemma dict_get_set_ne k k' v dict :
  k <> k' -> Main.dict_get k' (Main.dict_set k v dict) = Main.dict_get k' dict.
Proof.
  intros Hne. induction dict as [|[k0 v0] dict IH]; simpl.
  - destruct (Z.eqb_spec k k'); [done|done].
  - destruct (Z.eqb_spec k0 k) as [->|Hne0]; simpl.
    + destruct (Z.eqb_spec k k'); [done|done].
    + destruct (Z.eqb_spec k0 k'); [done|]. exact IH.
Qed.

Lemma dict_set_keys k v dict :
  map fst (Main.dict_set k v dict)
  = if Main.dict_get k dict is Some _ then map fst dict else map fst dict ++ [k].
Proof.
  induction dict as [|[k0 v0] dict IH]; simpl; [done|].
  destruct (Z.eqb_spec k0 k) as [->|Hne]; simpl; [done|].
  rewrite IH. by destruct (Main.dict_get k dict).
Qed.

Lemma dict_set_NoDup k v dict :
  NoDup (map fst dict) -> NoDup (map fst (Main.dict_set k v dict)).
Proof.
  intros Hnd. rewrite dict_set_keys.
  destruct (Main.dict_get k dict) eqn:E; [done|].
  apply dict_get_None in E. apply NoDup_app. split; [done|]. split.
  - intros x Hx ->%list_elem_of_singleton. done.
  - apply NoDup_singleton.
Qed.

(** ** The two loops of the ensemble search *)

Lemma getitem_valid (df : list Main.Row) idx :
  -1 <= idx -> valid_label df idx = true ->
  exists row, Py.getitem df idx = Some row.
Proof.
  unfold valid_label, Py.getitem, Py.len. intros Hlo Hv.
  apply andb_prop in Hv as [Hne Hlt].
  apply negb_true_iff, Z.eqb_neq in Hne. apply Z.ltb_lt in Hlt.
  destruct (Z.leb_spec 0 idx); [|lia].
  destruct (Z.ltb_spec idx (Z.of_nat (length df))); [|lia]. simpl.
  apply lookup_lt_is_Some_2. lia.
Qed.

Lemma hit_score_snoc df hits h c :
  hit_score df (hits ++ [h]) c = hit_step df c (hit_score df hits c) h.
Proof. unfold hit_score. by rewrite fold_left_app. Qed.

Lemma primary_pass_eq df dict score idx :
  Main.primary_pass df (Py.Return dict) (score, idx)
  = if valid_label df idx then
      row ← Main.iloc df idx;
      Py.Return (Main.dict_set (Main.chunk_id row)
                   {| Main.e_theme := Main.theme row;
                      Main.e_file := Main.file_name row;
                      Main.e_chunk_text := Main.chunk_text row;
                      Main.score_primary := score;
                      Main.score_enhanced := 0%Q;
                      Main.idx := idx |} dict)
    else Py.Return dict.
Proof. reflexivity. Qed.

Lemma enhanced_pass_eq df dict score idx :
  Main.enhanced_pass df (Py.Return dict) (score, idx)
  = if valid_label df idx then
      row ← Main.iloc df idx;
      match Main.dict_get (Main.chunk_id row) dict with
      | Some e =>
          Py.Return (Main.dict_set (Main.chunk_id row)
                       (Main.set_score_enhanced score e) dict)
      | None =>
          Py.Return (Main.dict_set (Main.chunk_id row)
                       {| Main.e_theme := Main.theme row;
                          Main.e_file := Main.file_name row;
                          Main.e_chunk_text := Main.chunk_text row;
                          Main.score_primary := 0%Q;
                          Main.score_enhanced := score;
                          Main.idx := idx |} dict)
      end
    else Py.Return dict.
Proof. reflexivity. Qed.

Lemma primary_pass_view df primary :
  Forall (fun hit => -1 <= hit.2) primary ->
  exists dict,
    fold_left (Main.primary_pass df) primary (Py.Return []) = Py.Return dict
    /\ fused_view df primary [] dict.
Proof.
  induction primary as [|[score idx] primary IH] using rev_ind; intros Hwf.
  - exists []. split; [done|]. split; [constructor|]. by intros c.
  - apply Forall_app in Hwf as [Hwf Hh]. apply Forall_inv in Hh. simpl in Hh.
    destruct (IH Hwf) as (dict & E & Hnd & Hview).
    rewrite fold_left_app, E. cbn [fold_left]. rewrite primary_pass_eq.
    destruct (valid_label df idx) eqn:Hv.
    + destruct (getitem_valid df idx Hh Hv) as [row Hrow].
      unfold Main.iloc. rewrite Hrow. eexists. split; [reflexivity|].
      split; [by apply dict_set_NoDup|].
      intros c. rewrite hit_score_snoc. unfold hit_step. cbn [fst snd].
      rewrite Hv, Hrow. destruct (Z.eqb_spec (Main.chunk_id row) c) as [->|Hne].
      * rewrite dict_get_set_eq. simpl. split; [left; eauto|done].
      * rewrite dict_get_set_ne by done. apply Hview.
    + exists dict. split; [done|]. split; [done|].
      intros c. rewrite hit_score_snoc. unfold hit_step. cbn [fst snd].
      rewrite Hv. apply Hview.
Qed.

Lemma enhanced_pass_view df primary enhanced dict0 :
  Forall (fun hit => -1 <= hit.2) enhanced ->
  fused_view df primary [] dict0 ->
  exists dict,
    fold_left (Main.enhanced_pass df) enhanced (Py.Return dict0) = Py.Return dict
    /\ fused_view df primary enhanced dict.
Proof.
  intros Hwf H0.
  induction enhanced as [|[score idx] enhanced IH] using rev_ind.
  - by exists dict0.
  - apply Forall_app in Hwf as [Hwf Hh]. apply Forall_inv in Hh. simpl in Hh.
    destruct (IH Hwf) as (dict & E & Hnd & Hview).
    rewrite fold_left_app, E. cbn [fold_left]. rewrite enhanced_pass_eq.
    destruct (valid_label df idx) eqn:Hv.
    + destruct (getitem_valid df idx Hh Hv) as [row Hrow].
      unfold Main.iloc. rewrite Hrow. cbn [Py.of_option mbind result_bind Py.bind].
      pose proof (Hview (Main.chunk_id row)) as Hkey.
      destruct (Main.dict_get (Main.chunk_id row) dict) as [e|] eqn:Eget.
      * eexists. split; [reflexivity|]. split; [by apply dict_set_NoDup|].
        intros c. rewrite hit_score_snoc. unfold hit_step. cbn [fst snd].
        rewrite Hv, Hrow.
        destruct (Z.eqb_spec (Main.chunk_id row) c) as [<-|Hne].
        -- rewrite dict_get_set_eq. simpl. split; [right; eauto|].
           split; [apply Hkey|done].
        -- rewrite dict_get_set_ne by done. apply Hview.
      * eexists. split; [reflexivity|]. split; [by apply dict_set_NoDup|].
        intros c. rewrite hit_score_snoc. unfold hit_step. cbn [fst snd].
        rewrite Hv, Hrow.
        destruct (Z.eqb_spec (Main.chunk_id row) c) as [<-|Hne].
        -- rewrite dict_get_set_eq. simpl. split; [right; eauto|].
           split; [|done]. destruct Hkey as [-> _]. done.
        -- rewrite dict_get_set_ne by done. apply Hview.
    + exists dict. split; [done|]. split; [done|].
      intros c. rewrite hit_score_snoc. unfold hit_step. cbn [fst snd].
      rewrite Hv. apply Hview.
Qed.

Lemma slice_to_take {A} (l : list A) (k : Z) :
  0 <= k -> Py.slice_to l k = take (Z.to_nat k) l.
Proof.
  intros Hk. unfold Py.slice_to, Py.len.
  destruct (Z.ltb_spec k 0); [lia|].
  destruct (Z.le_gt_cases k (Z.of_nat (length l))).
  - by rewrite Z.min_l.
  - rewrite Z.min_r, Nat2Z.id by lia. by rewrite firstn_all, take_ge by lia.
Qed.

(** ** Claims about the ensemble search of [main.py] *)

Section EnsembleFacts.
Variables primary_model secondary_model : string -> Faiss.vector.

Abbreviation ensemble_search :=
  (Main.semantic_search primary_model secondary_model).


(** C1, amended: the search is, on every input, the fusion of two searches
    of the one index of the state, [Main.index st]: one with the first
    provider's query embedding and one with the second provider's. For
    [k > 0] and query embeddings of the index dimension both searches return
    their hit lists, [primary] and [enhanced]: every hit of the first scores
    the first provider's query embedding against the vector stored at its
    position in that index, every hit of the second scores the second
    provider's query embedding against the vector stored at its position in
    the same index. The providers are applied to the query only: providers
    that agree on the query give the same result whatever they would make of
    the chunks. *)
Theorem ensemble_searches_shared_index
    (st : Main.State) (query : string) (k : Z) :
  0 < k ->
  Faiss.has_dim (Faiss.d (Main.index st)) (primary_model query) = true ->
  Faiss.has_dim (Faiss.d (Main.index st)) (secondary_model query) = true ->
  ensemble_search st query k
  = ('(distances_primary, indices_primary) ←
       Faiss.search (Main.index st) (primary_model query) k;
     '(distances_enhanced, indices_enhanced) ←
       Faiss.search (Main.index st) (secondary_model query) k;
     Main.combine (Main.df_chunks st)
                  (zip distances_primary indices_primary)
                  (zip distances_enhanced indices_enhanced) k)
  /\ exists primary enhanced,
       Faiss.search (Main.index st) (primary_model query) k
       = Py.Return (map fst primary, map snd primary)
       /\ Faiss.search (Main.index st) (secondary_model query) k
          = Py.Return (map fst enhanced, map snd enhanced)
       /\ ensemble_search st query k
          = Main.combine (Main.df_chunks st) primary enhanced k
       /\ length primary = Z.to_nat k
       /\ length enhanced = Z.to_nat k
       /\ (forall score idx, (score, idx) ∈ primary -> idx <> -1 ->
             exists v, Faiss.xb (Main.index st) !! Z.to_nat idx = Some v
                       /\ score = Faiss.inner_product (primary_model query) v)
       /\ (forall score idx, (score, idx) ∈ enhanced -> idx <> -1 ->
             exists v, Faiss.xb (Main.index st) !! Z.to_nat idx = Some v
                       /\ score = Faiss.inner_product (secondary_model query) v)
       /\ forall primary' secondary' : string -> Faiss.vector,
            primary' query = primary_model query ->
            secondary' query = secondary_model query ->
            Main.semantic_search primary' secondary' st query k
            = ensemble_search st query k.
Proof.
  intros Hk Hp Hs. split; [reflexivity|].
  exists (Faiss.knn (Main.index st) (primary_model query) (Z.to_nat k)),
         (Faiss.knn (Main.index st) (secondary_model query) (Z.to_nat k)).
  split; [by apply search_returns|]. split; [by apply search_returns|].
  split; [|split; [|split; [|split; [|split]]]].
  - unfold Main.semantic_search. rewrite !search_returns by done.
    cbn [mbind result_bind Py.bind]. by rewrite !zip_fst_snd.
  - unfold Faiss.knn. rewrite length_app, length_replicate.
    pose proof (firstn_le_length (Z.to_nat k)
                  (Py.sorted_desc fst
                     (Faiss.scan (Main.index st) (primary_model query)))). lia.
  - unfold Faiss.knn. rewrite length_app, length_replicate.
    pose proof (firstn_le_length (Z.to_nat k)
                  (Py.sorted_desc fst
                     (Faiss.scan (Main.index st) (secondary_model query)))). lia.
  - intros score idx. apply knn_hit.
  - intros score idx. apply knn_hit.
  - intros primary' secondary' Ep Es. unfold Main.semantic_search.
    by rewrite Ep, Es.
Qed.
End EnsembleFacts.

(** C1, as stated, fails: on [corpus], whose index holds the first
    provider's embeddings, the search differs from the one that would use an
    index of the second provider's embeddings for the second query vector. *)
Lemma shared_index_not_own_index :
  ~ searches_own_index toy_primary toy_secondary corpus.
Proof.
  intros H. specialize (H "Who is first?" 2).
  vm_compute in H. discriminate H.
Qed.

Lemma ensemble_searches_shared_index_witness :
  Main.semantic_search toy_primary toy_secondary corpus "Who is first?" 2
  = ('(distances_primary, indices_primary) ←
       Faiss.search (Main.index corpus) (toy_primary "Who is first?") 2;
     '(distances_enhanced, indices_enhanced) ←
       Faiss.search (Main.index corpus) (toy_secondary "Who is first?") 2;
     Main.combine (Main.df_chunks corpus)
                  (zip distances_primary indices_primary)
                  (zip distances_enhanced indices_enhanced) 2)
  /\ exists primary enhanced,
       Faiss.search (Main.index corpus) (toy_primary "Who is first?") 2
       = Py.Return (map fst primary, map snd primary)
       /\ Faiss.search (Main.index corpus) (toy_secondary "Who is first?") 2
          = Py.Return (map fst enhanced, map snd enhanced)
       /\ Main.semantic_search toy_primary toy_secondary corpus "Who is first?" 2
          = Main.combine (Main.df_chunks corpus) primary enhanced 2
       /\ length primary = Z.to_nat 2
       /\ length enhanced = Z.to_nat 2
       /\ (forall score idx, (score, idx) ∈ primary -> idx <> -1 ->
             exists v, Faiss.xb (Main.index corpus) !! Z.to_nat idx = Some v
                       /\ score
                          = Faiss.inner_product (toy_primary "Who is first?") v)
       /\ (forall score idx, (score, idx) ∈ enhanced -> idx <> -1 ->
             exists v, Faiss.xb (Main.index corpus) !! Z.to_nat idx = Some v
                       /\ score
                          = Faiss.inner_product (toy_secondary "Who is first?") v)
       /\ forall primary' secondary' : string -> Faiss.vector,
            primary' "Who is first?" = toy_primary "Who is first?" ->
            secondary' "Who is first?" = toy_secondary "Who is first?" ->
            Main.semantic_search primary' secondary' corpus "Who is first?" 2
            = Main.semantic_search toy_primary toy_secondary corpus
                "Who is first?" 2.
Proof.
  apply (ensemble_searches_shared_index toy_primary toy_secondary corpus
           "Who is first?" 2).
  - lia.
  - reflexivity.
  - reflexivity.
Defined.





(** ** Worked examples *)

(** The ensemble search drops the padding slots: three rows, [k = 5]. *)
Example ensemble_search_drops_padding :
  exists results,
    Main.semantic_search toy_primary toy_secondary corpus "Who is first?" 5
    = Py.Return results
    /\ map (fun r => Main.idx (Main.entry r)) results = [2; 0; 1].
Proof. eexists. split; [vm_compute; reflexivity|reflexivity]. Qed.

(** A chunk that only the second hit list contains is kept, with primary
    score [0]. *)
Example combine_keeps_one_sided_chunk :
  exists results,
    Main.combine corpus_rows [(3 # 1, 0)] [(2 # 1, 1)] 2 = Py.Return results
    /\ map (fun r => (Main.idx (Main.entry r),
                      Main.score_primary (Main.entry r),
                      Main.score_enhanced (Main.entry r))) results
       = [(0, 3 # 1, 0%Q); (1, 0%Q, 2 # 1)]
    /\ Forall2 (fun r q => (Main.combined_score r == q)%Q) results
               [21 # 10; 6 # 10]%Q.
Proof.
  eexists. split; [vm_compute; reflexivity|]. split; [reflexivity|].
  repeat constructor.
Qed.

Example chunk_sentences_ex :
  App.chunk_sentences ["Alpha is first."; "Beta is second."; "Gamma is third."] 6 1
  = ["Alpha is first. Beta is second."; "Beta is second. Gamma is third."].
Proof. reflexivity. Qed.

(** * Further properties of the code *)

(** ** More on the segmenter *)

Section SegmenterMore.
Variables max_tokens overlap_sentences : Z.

Abbreviation gloop := (fold_left (App.group_step max_tokens overlap_sentences)).

Lemma n_tokens_nonneg s : 0 <= App.n_tokens s.
Proof. unfold App.n_tokens, Py.len. lia. Qed.

Lemma sum_n_tokens_nonneg ss : 0 <= Py.sum (map App.n_tokens ss).
Proof.
  induction ss as [|s ss IH]; simpl; [done|].
  pose proof (n_tokens_nonneg s). unfold Py.sum in *. simpl. lia.
Qed.

(** Closing adds at most one chunk per sentence. *)
Lemma close_groups_step st s :
  (length (App.close_groups (App.group_step max_tokens overlap_sentences st s))
   <= S (length (App.close_groups st)))%nat.
Proof.
  destruct st as [[G c] l]. rewrite gstep_eq.
  destruct (l + App.n_tokens s <=? max_tokens).
  - unfold App.close_groups.
    rewrite (truthy_nonempty (c ++ [s])) by (by destruct c).
    rewrite length_app. simpl. destruct (Py.truthy c); [rewrite length_app|];
      simpl; lia.
  - unfold App.close_groups.
    rewrite (truthy_nonempty (App.take_overlap c overlap_sentences ++ [s]))
      by (by destruct (App.take_overlap c overlap_sentences)).
    destruct (Py.truthy c); rewrite !length_app; simpl; lia.
Qed.

Lemma close_groups_loop ss st :
  (length (App.close_groups (gloop ss st))
   <= length (App.close_groups st) + length ss)%nat.
Proof.
  revert st. induction ss as [|s ss IH]; intros st; simpl; [lia|].
  specialize (IH (App.group_step max_tokens overlap_sentences st s)).
  pose proof (close_groups_step st s). lia.
Qed.

Lemma chunk_groups_nonempty_input s ss :
  App.chunk_groups (s :: ss) max_tokens overlap_sentences <> [].
Proof.
  unfold App.chunk_groups, App.group_loop. cbn [fold_left]. rewrite gstep_eq.
  destruct (0 + App.n_tokens s <=? max_tokens).
  - destruct (group_loop_extends max_tokens overlap_sentences ss []
                ([] ++ [s]) (0 + App.n_tokens s)) as (r & m & ->); [done|].
    done.
  - cbn [Py.truthy].
    destruct (group_loop_extends max_tokens overlap_sentences ss []
                (App.take_overlap [] overlap_sentences ++ [s])
                (Py.sum (map App.n_tokens
                           (App.take_overlap [] overlap_sentences ++ [s]))))
      as (r & m & ->).
    + by destruct (App.take_overlap [] overlap_sentences).
    + done.
Qed.

(** While everything fits, the loop only appends to the current chunk. *)
Lemma group_loop_all_fit ss G c l :
  l + Py.sum (map App.n_tokens ss) <= max_tokens ->
  gloop ss (G, c, l) = (G, c ++ ss, l + Py.sum (map App.n_tokens ss)).
Proof.
  revert c l. induction ss as [|s ss IH]; intros c l Hfit.
  - simpl. rewrite app_nil_r. unfold Py.sum. simpl. f_equal. lia.
  - cbn [fold_left]. rewrite gstep_eq.
    change (Py.sum (map App.n_tokens (s :: ss)))
      with (App.n_tokens s + Py.sum (map App.n_tokens ss)) in *.
    pose proof (sum_n_tokens_nonneg ss).
    destruct (Z.leb_spec (l + App.n_tokens s) max_tokens); [|lia].
    rewrite IH by lia. rewrite <- app_assoc. simpl. f_equal. lia.
Qed.

(** The current chunk is a suffix of the sentences read so far and every
    closed chunk is a contiguous run of them. *)
Lemma take_overlap_suffix c : App.take_overlap c overlap_sentences `suffix_of` c.
Proof.
  unfold App.take_overlap. destruct (overlap_sentences =? 0).
  - apply suffix_nil.
  - unfold Py.slice_from. apply suffix_drop.
Qed.

Lemma group_loop_runs ss read G c l :
  c `suffix_of` read ->
  Forall (fun g => exists before after, read = before ++ g ++ after) G ->
  let '(G', c', _) := gloop ss (G, c, l) in
  c' `suffix_of` (read ++ ss)
  /\ Forall (fun g => exists before after, read ++ ss = before ++ g ++ after) G'.
Proof.
  revert read G c l. induction ss as [|s ss IH]; intros read G c l Hc HG.
  - simpl. by rewrite app_nil_r.
  - cbn [fold_left]. rewrite gstep_eq.
    assert (Forall (fun g => exists before after,
                      read ++ [s] = before ++ g ++ after) G) as HG'.
    { eapply Forall_impl; [exact HG|]. intros g (b & a & ->).
      exists b, (a ++ [s]). by rewrite <- !app_assoc. }
    replace (read ++ s :: ss) with ((read ++ [s]) ++ ss)
      by (by rewrite <- app_assoc).
    destruct (l + App.n_tokens s <=? max_tokens).
    + apply IH; [|done]. by apply suffix_app.
    + apply IH.
      * apply suffix_app. etrans; [apply take_overlap_suffix|done].
      * destruct (Py.truthy c); [|done].
        apply Forall_app. split; [done|]. constructor; [|done].
        destruct Hc as [k ->]. exists k, [s]. by rewrite <- app_assoc.
Qed.

(** Without overlap the closed chunks and the current chunk are exactly the
    sentences read so far. *)
Lemma group_loop_partition ss G c l :
  overlap_sentences = 0 ->
  let '(G', c', _) := gloop ss (G, c, l) in
  concat G' ++ c' = (concat G ++ c) ++ ss.
Proof.
  intros Hov. revert G c l. induction ss as [|s ss IH]; intros G c l.
  - simpl. by rewrite app_nil_r.
  - cbn [fold_left]. rewrite gstep_eq.
    destruct (l + App.n_tokens s <=? max_tokens).
    + specialize (IH G (c ++ [s]) (l + App.n_tokens s)).
      destruct (gloop ss _) as [[G' c'] l']. cbv beta iota in IH |- *.
      etrans; [exact IH|]. by rewrite <- !app_assoc.
    + assert (App.take_overlap c overlap_sentences = []) as ->
        by (unfold App.take_overlap; by rewrite Hov).
      cbn [app]. set (G1 := if Py.truthy c then G ++ [c] else G).
      assert (concat G1 = concat G ++ c) as EG.
      { subst G1. destruct c; simpl; [by rewrite app_nil_r|].
        rewrite concat_app. simpl. by rewrite app_nil_r. }
      specialize (IH G1 [s] (Py.sum (map App.n_tokens [s]))).
      destruct (gloop ss _) as [[G' c'] l']. cbv beta iota in IH |- *.
      etrans; [exact IH|]. rewrite EG. by rewrite <- !app_assoc.
Qed.
End SegmenterMore.

Lemma group_loop_current_nonempty max_tokens overlap_sentences ss G c l :
  c <> [] \/ ss <> [] ->
  (fold_left (App.group_step max_tokens overlap_sentences) ss (G, c, l)).1.2 <> [].
Proof.
  revert G c l. induction ss as [|s ss IH]; intros G c l Hne.
  - simpl. by destruct Hne.
  - cbn [fold_left]. rewrite gstep_eq.
    destruct (l + App.n_tokens s <=? max_tokens).
    + apply IH. left. by destruct c.
    + apply IH. left. by destruct (App.take_overlap c overlap_sentences).
Qed.

(** X1: the segmenter returns no chunk exactly when there is no sentence, and
    never more chunks than sentences. *)
Theorem chunk_count_bounds
    (sent_tokenize : string -> list string) (text : string)
    (max_tokens overlap_sentences : Z) :
  (App.chunk_text sent_tokenize text max_tokens overlap_sentences = []
   <-> sent_tokenize text = [])
  /\ Py.len (App.chunk_text sent_tokenize text max_tokens overlap_sentences)
     <= Py.len (sent_tokenize text).
Proof.
  unfold App.chunk_text. rewrite chunk_sentences_groups. split.
  - split.
    + intros H%fmap_nil_inv. destruct (sent_tokenize text) as [|s ss]; [done|].
      by apply chunk_groups_nonempty_input in H.
    + by intros ->.
  - unfold Py.len. rewrite length_map. unfold App.chunk_groups, App.group_loop.
    pose proof (close_groups_loop max_tokens overlap_sentences
                  (sent_tokenize text) ([], [], 0)) as H.
    simpl in H. lia.
Qed.

(** X2: when the sentences together have at most [max_tokens] tokens, the
    result is the single chunk that joins them all. *)
Theorem all_fit_single_chunk
    (sent_tokenize : string -> list string) (text : string)
    (max_tokens overlap_sentences : Z) :
  sent_tokenize text <> [] ->
  Py.sum (map App.n_tokens (sent_tokenize text)) <= max_tokens ->
  App.chunk_text sent_tokenize text max_tokens overlap_sentences
  = [Py.join " " (sent_tokenize text)].
Proof.
  intros Hne Hfit. unfold App.chunk_text. rewrite chunk_sentences_groups.
  unfold App.chunk_groups, App.group_loop.
  rewrite group_loop_all_fit by lia. cbn [app App.close_groups].
  by rewrite truthy_nonempty.
Qed.

Lemma all_fit_single_chunk_witness :
  App.chunk_text simple_tokenize three_sentences 300 2
  = [Py.join " " (simple_tokenize three_sentences)].
Proof.
  apply (all_fit_single_chunk simple_tokenize three_sentences 300 2).
  - discriminate.
  - vm_compute. discriminate.
Defined.

(** X3: every chunk is the join of a contiguous run of the input sentences,
    in their order, and the last chunk ends with the last sentence. *)
Theorem chunks_are_contiguous_runs
    (sent_tokenize : string -> list string) (text : string)
    (max_tokens overlap_sentences : Z) :
  (forall c,
     c ∈ App.chunk_text sent_tokenize text max_tokens overlap_sentences ->
     exists before g after,
       sent_tokenize text = before ++ g ++ after /\ c = Py.join " " g)
  /\ (forall c,
        last (App.chunk_text sent_tokenize text max_tokens overlap_sentences)
        = Some c ->
        exists before g,
          g <> [] /\ sent_tokenize text = before ++ g /\ c = Py.join " " g).
Proof.
  unfold App.chunk_text. rewrite chunk_sentences_groups.
  unfold App.chunk_groups, App.group_loop.
  generalize (sent_tokenize text). intros ss.
  pose proof (group_loop_runs max_tokens overlap_sentences ss
                [] [] [] 0 (suffix_nil _) (Forall_nil_2 _)) as H.
  pose proof (group_loop_current_nonempty max_tokens overlap_sentences
                ss [] [] 0) as Hcur.
  split.
  - destruct (fold_left _ ss _) as [[G c'] l].
    cbn [app fst snd] in H. destruct H as [[k Hk] HG].
    unfold App.close_groups.
    intros c Hc. apply list_elem_of_fmap in Hc as (g & -> & Hg).
    rewrite Forall_forall in HG.
    destruct (Py.truthy c').
    + apply elem_of_app in Hg as [Hg|Hg%list_elem_of_singleton].
      * destruct (HG g Hg) as (b & a & E). by exists b, g, a.
      * subst g. exists k, c', []. by rewrite app_nil_r.
    + destruct (HG g Hg) as (b & a & E). by exists b, g, a.
  - intros c Hc. rewrite fmap_last in Hc.
    destruct ss as [|s ss]; [done|].
    destruct (fold_left _ (s :: ss) _) as [[G c'] l].
    cbn [app fst snd] in H, Hcur. destruct H as [[k Hk] _].
    unfold App.close_groups in Hc.
    rewrite truthy_nonempty in Hc by (apply Hcur; by right).
    rewrite last_snoc in Hc. injection Hc as <-.
    exists k, c'. split; [apply Hcur; by right|]. done.
Qed.

(** X4: without overlap the chunks partition the sentence sequence: the
    sentences of all chunks, in order, are exactly the input sentences. *)
Theorem no_overlap_partitions_sentences
    (sent_tokenize : string -> list string) (text : string) (max_tokens : Z) :
  App.chunk_text sent_tokenize text max_tokens 0
  = map (Py.join " ") (App.chunk_groups (sent_tokenize text) max_tokens 0)
  /\ concat (App.chunk_groups (sent_tokenize text) max_tokens 0)
     = sent_tokenize text.
Proof.
  split; [apply chunk_sentences_groups|].
  unfold App.chunk_groups, App.group_loop.
  pose proof (group_loop_partition max_tokens 0 (sent_tokenize text)
                [] [] 0 eq_refl) as H.
  destruct (fold_left _ (sent_tokenize text) _) as [[G c] l].
  by rewrite concat_close_groups.
Qed.

(** ** [clean_text] *)

Section CleanFacts.
Import Py.

Lemma lstrip_sub_ws b s : lstrip (sub_ws b s) = sub_ws true s.
Proof.
  revert b. induction s as [|c s IH]; intros b; [done|]. simpl.
  destruct (is_space c) eqn:Ec.
  - destruct b; [apply IH|]. simpl. apply IH.
  - simpl. by rewrite Ec.
Qed.

Lemma rstrip_cons_nonspace c r :
  is_space c = false -> rstrip (String c r) = String c (rstrip r).
Proof. intros Ec. simpl. rewrite Ec. by destruct (rstrip r). Qed.

Lemma string_app_assoc (a b c : string) : (a +:+ b) +:+ c = a +:+ (b +:+ c).
Proof.
  induction a as [|x a IH]; [done|].
  change (String x ((a +:+ b) +:+ c) = String x (a +:+ (b +:+ c))).
  by rewrite IH.
Qed.

Lemma split_ws_prepend s t u :
  exists h l,
    split_ws (Some u) s = h :: l
    /\ split_ws (Some (t +:+ u)) s = (t +:+ h) :: l.
Proof.
  revert u. induction s as [|c s IH]; intros u; simpl.
  - by exists u, [].
  - destruct (is_space c).
    + by exists u, (split_ws None s).
    + rewrite string_app_assoc. apply IH.
Qed.

Lemma join_prepend t h l :
  join " " ((t +:+ h) :: l) = t +:+ join " " (h :: l).
Proof. destruct l; simpl; [done|]. by rewrite string_app_assoc. Qed.

Lemma split_head_nonempty s h l : split_ws None s = h :: l -> h <> "".
Proof.
  induction s as [|c s IH]; simpl; [done|].
  destruct (is_space c); [exact IH|].
  destruct (split_ws_prepend s (String c "") "") as (h0 & l0 & _ & E).
  change (String c "" +:+ "") with (String c "") in E.
  rewrite E. by intros [= <- _].
Qed.

Lemma join_nonempty h l : h <> "" -> join " " (h :: l) <> "".
Proof. destruct h; [done|]. by destruct l. Qed.

(** After the runs are collapsed, stripping the right end leaves the words
    joined by single spaces; [Some ""] stands for a word being read. *)
Lemma rstrip_sub_ws s :
  rstrip (sub_ws false s) = join " " (split_ws (Some "") s)
  /\ rstrip (sub_ws true s) = join " " (split_ws None s).
Proof.
  induction s as [|c s [IH1 IH2]]; [done|].
  cbn [sub_ws split_ws]. destruct (is_space c) eqn:Ec.
  - split; [|exact IH2].
    cbn [rstrip]. rewrite IH2.
    destruct (split_ws None s) as [|h l] eqn:El; [done|].
    pose proof (join_nonempty h l (split_head_nonempty s h l El)) as Hne.
    change (join " " ("" :: h :: l)) with (String " " (join " " (h :: l))).
    by destruct (join " " (h :: l)).
  - rewrite rstrip_cons_nonspace, IH1 by done.
    destruct (split_ws_prepend s (String c "") "") as (h & l & E0 & E).
    change (String c "" +:+ "") with (String c "") in E.
    change ("" +:+ String c "") with (String c "").
    rewrite E, E0. split; by rewrite join_prepend.
Qed.

Lemma split_sub_ws tok b s :
  (b = true -> tok = None) ->
  split_ws tok (sub_ws b s) = split_ws tok s.
Proof.
  revert tok b. induction s as [|c s IH]; intros tok b Hb; [done|].
  simpl. destruct (is_space c) eqn:Ec.
  - destruct b.
    + rewrite Hb by done. by apply IH.
    + simpl. destruct tok; by rewrite IH.
  - simpl. rewrite Ec. by apply IH.
Qed.

Lemma split_lstrip s : split_ws None (lstrip s) = split_ws None s.
Proof.
  induction s as [|c s IH]; [done|]. simpl.
  destruct (is_space c) eqn:Ec; [exact IH|]. simpl. by rewrite Ec.
Qed.

Lemma split_rstrip tok s : split_ws tok (rstrip s) = split_ws tok s.
Proof.
  revert tok. induction s as [|c s IH]; intros tok; [done|].
  cbn [rstrip]. destruct (rstrip s) as [|x r] eqn:Er.
  - destruct (is_space c) eqn:Ec.
    + simpl. rewrite Ec. destruct tok; by rewrite <- IH.
    + simpl. rewrite Ec. by rewrite <- IH.
  - simpl. destruct (is_space c); [destruct tok|]; by rewrite <- IH.
Qed.
Lemma replace_squote s : replace squote squote s = s.
Proof.
  unfold replace, squote. induction s as [|c s IH]; [done|].
  cbn [replace_from String.prefix String.length].
  destruct (ascii_dec (ascii_of_nat 39) c) as [<-|Hc].
  - destruct s; cbn [Nat.sub String.append]; by rewrite IH.
  - by rewrite IH.
Qed.

Lemma prefix_quoted_call s :
  String.prefix App.quoted_call s = true ->
  contains_char (ascii_of_nat 34) s = true.
Proof.
  let q := eval vm_compute in App.quoted_call in
  change App.quoted_call with q.
  destruct s as [|c0 [|c1 [|c2 [|c3 s]]]]; try done; intros H;
    cbn [String.prefix] in H.
  - by destruct (ascii_dec _ c0).
  - destruct (ascii_dec _ c0); [|done]. by destruct (ascii_dec _ c1).
  - destruct (ascii_dec _ c0); [|done]. destruct (ascii_dec _ c1); [|done].
    by destruct (ascii_dec _ c2).
  - destruct (ascii_dec _ c0); [|done]. destruct (ascii_dec _ c1); [|done].
    destruct (ascii_dec _ c2); [|done].
    destruct (ascii_dec _ c3) as [<-|]; [|done].
    cbn [contains_char]. rewrite !orb_true_iff. right. right. right. by left.
Qed.

Lemma replace_no_dquote s :
  contains_char (ascii_of_nat 34) s = false ->
  replace App.quoted_call dquote s = s.
Proof.
  unfold replace. induction s as [|c s IH]; [done|]. intros H.
  cbn [replace_from].
  destruct (String.prefix App.quoted_call (String c s)) eqn:Hp.
  - apply prefix_quoted_call in Hp. congruence.
  - cbn [contains_char] in H. apply orb_false_iff in H as [_ H].
    by rewrite IH.
Qed.

Lemma contains_sub_ws ch b s :
  contains_char ch s = false -> ch <> " "%char ->
  contains_char ch (sub_ws b s) = false.
Proof.
  intros H Hch. revert b H. induction s as [|c s IH]; intros b H; [done|].
  cbn [contains_char] in H. apply orb_false_iff in H as [Hc H].
  cbn [sub_ws]. destruct (is_space c).
  - destruct b; [by apply IH|]. cbn [contains_char]. rewrite IH by done.
    rewrite orb_false_r. by apply Ascii.eqb_neq.
  - cbn [contains_char]. by rewrite Hc, IH.
Qed.

Lemma contains_lstrip ch s :
  contains_char ch s = false -> contains_char ch (lstrip s) = false.
Proof.
  induction s as [|c s IH]; [done|]. intros H. cbn [lstrip].
  destruct (is_space c); [|done].
  cbn [contains_char] in H. apply orb_false_iff in H as [_ H]. by apply IH.
Qed.

Lemma contains_rstrip ch s :
  contains_char ch s = false -> contains_char ch (rstrip s) = false.
Proof.
  induction s as [|c s IH]; [done|]. intros H.
  cbn [contains_char] in H. apply orb_false_iff in H as [Hc H].
  specialize (IH H). cbn [rstrip]. destruct (rstrip s) as [|c' r].
  - destruct (is_space c); [done|]. cbn [contains_char]. by rewrite Hc.
  - cbn [contains_char] in *. by rewrite Hc, IH.
Qed.

(** Without a double quote in the text the [replace] chain returns the text
    as it is, and the cleaned text has no double quote either. *)
Lemma clean_text_no_dquote text :
  contains_char (ascii_of_nat 34) text = false ->
  App.clean_text text = strip (sub_ws false text)
  /\ contains_char (ascii_of_nat 34) (App.clean_text text) = false.
Proof.
  intros H.
  assert (contains_char (ascii_of_nat 34) (sub_ws false text) = false) as Hs
    by (by apply contains_sub_ws).
  assert (App.clean_text text = strip (sub_ws false text)) as ->.
  { unfold App.clean_text. cbv zeta.
    by rewrite (replace_no_dquote _ Hs), !replace_squote. }
  split; [done|]. unfold strip. by apply contains_rstrip, contains_lstrip.
Qed.

End CleanFacts.

(** X5: on a text without a double-quote character, [clean_text] returns
    the words of the text joined by single spaces,
    [' '.join(text.split())]; so it keeps the words as they are and cleaning
    twice is cleaning once. With a double quote the [replace] chain of the
    second statement can apply, see [clean_text_replaces_quoted_call]. *)
Theorem clean_text_joins_words (text : string) :
  no_double_quote text ->
  App.clean_text text = Py.join " " (Py.split text)
  /\ Py.split (App.clean_text text) = Py.split text
  /\ App.clean_text (App.clean_text text) = App.clean_text text.
Proof.
  unfold no_double_quote. intros H.
  destruct (clean_text_no_dquote text H) as [Hc Hq].
  assert (forall s, Py.strip (Py.sub_ws false s) = Py.join " " (Py.split s))
    as Hjoin.
  { intros s. unfold Py.strip, Py.split.
    rewrite lstrip_sub_ws. apply rstrip_sub_ws. }
  assert (forall s, Py.split (Py.strip (Py.sub_ws false s)) = Py.split s)
    as Hsplit.
  { intros s. unfold Py.strip, Py.split.
    by rewrite split_rstrip, split_lstrip, split_sub_ws. }
  split; [by rewrite Hc|]. split; [by rewrite Hc|].
  destruct (clean_text_no_dquote _ Hq) as [-> _].
  by rewrite Hjoin, Hc, Hsplit, Hjoin.
Qed.

Lemma clean_text_joins_words_witness :
  no_double_quote " Alpha  is first. "
  /\ App.clean_text " Alpha  is first. " = "Alpha is first.".
Proof.
  split; [reflexivity|].
  by destruct (clean_text_joins_words " Alpha  is first. " eq_refl) as [-> _].
Defined.

(** The fifteen characters of [App.quoted_call] inside a text are replaced
    by one double quote. *)
Example clean_text_replaces_quoted_call :
  App.clean_text quoted_call_text = "a" +:+ Py.dquote +:+ "b".
Proof. reflexivity. Qed.

(** ** More on the document store of [app.py] *)

Lemma add_new_returns dim x ix :
  Faiss.add (Faiss.new dim) x = Py.Return ix ->
  Faiss.xb ix = x /\ Faiss.d ix = dim.
Proof.
  unfold Faiss.add, Faiss.new. simpl.
  destruct (forallb _ x); [|done]. by intros [= <-].
Qed.

Lemma knn_no_padding ix q k :
  (k <= length (Faiss.xb ix))%nat ->
  Faiss.knn ix q k = take k (Py.sorted_desc fst (Faiss.scan ix q)).
Proof.
  intros Hk. unfold Faiss.knn.
  assert (length (take k (Py.sorted_desc fst (Faiss.scan ix q))) = k) as ->.
  { rewrite length_take, sorted_desc_perm. unfold Faiss.scan.
    rewrite length_imap. lia. }
  rewrite Nat.sub_diag. simpl. by rewrite app_nil_r.
Qed.

Lemma scan_labels_NoDup ix q : NoDup (map snd (Faiss.scan ix q)).
Proof.
  unfold Faiss.scan.
  change (NoDup (snd <$> imap (fun i v => (Faiss.inner_product q v, Z.of_nat i))
                              (Faiss.xb ix))).
  rewrite fmap_imap.
  change (NoDup (imap (fun (i : nat) (_ : Faiss.vector) => Z.of_nat i)
                      (Faiss.xb ix))).
  rewrite imap_seq_0. apply NoDup_fmap_2; [apply _|apply NoDup_seq].
Qed.

Lemma scan_hit ix q score idx :
  (score, idx) ∈ Faiss.scan ix q ->
  0 <= idx < Faiss.ntotal ix
  /\ exists v, Faiss.xb ix !! Z.to_nat idx = Some v
               /\ score = Faiss.inner_product q v.
Proof.
  unfold Faiss.scan, Faiss.ntotal, Py.len. intros Hin.
  apply elem_of_lookup_imap_1 in Hin as (i & v & [= -> ->] & Hv).
  apply lookup_lt_Some in Hv as Hlt. split; [lia|].
  exists v. by rewrite Nat2Z.id.
Qed.

(** When every hit passes the guard and indexes a chunk, the loop of
    [semantic_search] turns the hits into results one by one. *)
Lemma collect_hits_valid chunks hits acc :
  Forall (fun hit => 0 <= hit.2 < Py.len chunks) hits ->
  exists results,
    fold_left (App.collect_hit chunks) hits (Py.Return acc)
    = Py.Return (acc ++ results)
    /\ Forall2 (fun r hit =>
                  App.score r = hit.1 /\ App.chunk_index r = hit.2
                  /\ chunks !! Z.to_nat hit.2 = Some (App.chunk_text_of r))
               results hits.
Proof.
  revert acc. induction hits as [|[score idx] hits IH]; intros acc Hv.
  - exists []. simpl. by rewrite app_nil_r.
  - apply Forall_cons in Hv as [Hh Hv]. simpl in Hh.
    assert (exists text, chunks !! Z.to_nat idx = Some text) as [text Ht].
    { apply lookup_lt_is_Some_2. unfold Py.len in Hh. lia. }
    cbn [fold_left]. unfold App.collect_hit at 2.
    cbn [mbind result_bind Py.bind].
    destruct (Z.ltb_spec idx (Py.len chunks)); [|lia].
    unfold Py.getitem.
    destruct (Z.leb_spec 0 idx); [|lia].
    destruct (Z.ltb_spec idx (Py.len chunks)); [|lia].
    cbn [andb]. rewrite Ht. cbn [Py.of_option mbind result_bind Py.bind].
    destruct (IH (acc ++ [{| App.chunk_text_of := text; App.score := score;
                             App.chunk_index := idx |}]) Hv)
      as (results & E & HF).
    eexists (_ :: results). rewrite E, <- app_assoc. split; [done|].
    by constructor.
Qed.

Section IndexedSessionFacts.
Variable sent_tokenize : string -> list string.
Variable encode : string -> Faiss.vector.
Variables extract_pdf extract_docx : string -> Py.result string.
Variable now : string.

(** X6: a successful ingestion stores, under the given id only, a session
    whose index holds exactly the embeddings of its chunks, one vector per
    chunk and at least one, and whose metadata is the returned one; the
    uploaded files are left as they are. *)
Theorem ingestion_installs_consistent_session
    (st st' : App.State) (user_id file_path filename : string)
    (m : App.Metadata) :
  App.create_user_index sent_tokenize encode extract_pdf extract_docx now
    st user_id file_path filename = (Py.Return m, st') ->
  exists doc_data,
    App.user_documents st' = <[user_id := doc_data]> (App.user_documents st)
    /\ App.upload_folder st' = App.upload_folder st
    /\ App.metadata doc_data = m
    /\ App.filename m = filename
    /\ App.chunks m <> []
    /\ App.total_chunks m = Py.len (App.chunks m)
    /\ Faiss.xb (App.index doc_data) = map encode (App.chunks m)
    /\ Faiss.ntotal (App.index doc_data) = App.total_chunks m
    /\ (Py.endswith filename ".pdf" = true
        \/ Py.endswith filename ".docx" = true).
Proof.
  unfold App.create_user_index, App.build_user_index. intros H.
  destruct (App.extract_text extract_pdf extract_docx st file_path filename)
    as [text|e] eqn:Etext; [|done].
  cbn [mbind result_bind Py.bind] in H.
  destruct (App.chunk_text sent_tokenize (App.clean_text text) 300 2)
    as [|c cs] eqn:Echunks; [done|].
  cbn [Py.truthy negb] in H.
  destruct (Faiss.add _ _) as [ix|e] eqn:Eadd; [|done].
  cbn [mbind result_bind Py.bind] in H. injection H as <- <-.
  apply add_new_returns in Eadd as [Exb Ed].
  eexists. split; [reflexivity|]. cbn [App.metadata App.index App.chunks
    App.total_chunks App.filename App.upload_folder].
  repeat split; try done.
  - unfold Faiss.ntotal. rewrite Exb. unfold Py.len. by rewrite length_map.
  - unfold App.extract_text in Etext.
    destruct (Py.endswith filename ".pdf"); [by left|].
    destruct (Py.endswith filename ".docx"); [by right|done].
Qed.

(** X7: on a session whose index has one vector per chunk, a search with
    [0 < k <= len(chunks)] returns exactly [k] results: each carries a
    position inside the chunk list, the chunk at that position and the inner
    product of the query embedding with the vector stored there; scores are
    in descending order and no position occurs twice. *)
Theorem search_of_indexed_session
    (st : App.State) (user_id query : string) (k : Z) (doc_data : App.DocData) :
  App.user_documents st !! user_id = Some doc_data ->
  Faiss.has_dim (Faiss.d (App.index doc_data)) (encode query) = true ->
  Faiss.ntotal (App.index doc_data) = Py.len (App.chunks (App.metadata doc_data)) ->
  0 < k <= Py.len (App.chunks (App.metadata doc_data)) ->
  exists results,
    App.semantic_search encode st user_id query k = Py.Return results
    /\ Py.len results = k
    /\ Forall (fun r =>
         0 <= App.chunk_index r < Py.len (App.chunks (App.metadata doc_data))
         /\ App.chunks (App.metadata doc_data) !! Z.to_nat (App.chunk_index r)
            = Some (App.chunk_text_of r)
         /\ exists v,
              Faiss.xb (App.index doc_data) !! Z.to_nat (App.chunk_index r) = Some v
              /\ App.score r = Faiss.inner_product (encode query) v) results
    /\ StronglySorted (desc App.score) results
    /\ NoDup (map App.chunk_index results).
Proof.
  intros Hdoc Hdim Hn Hk. unfold App.semantic_search. rewrite Hdoc.
  rewrite search_returns by (done || lia).
  cbn [mbind result_bind Py.bind]. rewrite zip_fst_snd.
  assert (Z.to_nat k <= length (Faiss.xb (App.index doc_data)))%nat as Hk'.
  { unfold Faiss.ntotal, Py.len in *. lia. }
  rewrite knn_no_padding by done.
  set (hits := take (Z.to_nat k) (Py.sorted_desc fst
                (Faiss.scan (App.index doc_data) (encode query)))).
  assert (forall hit, hit ∈ hits ->
            hit ∈ Faiss.scan (App.index doc_data) (encode query)) as Hscan.
  { intros hit Hin. subst hits.
    apply elem_of_take in Hin as (i & Hin%list_elem_of_lookup_2 & _).
    by rewrite sorted_desc_perm in Hin. }
  destruct (collect_hits_valid (App.chunks (App.metadata doc_data)) hits [])
    as (results & E & HF).
  { apply Forall_forall. intros [score idx] Hin.
    apply Hscan, scan_hit in Hin as [Hr _]. simpl. lia. }
  exists results. split; [exact E|].
  assert (map App.chunk_index results = map snd hits) as Eidx.
  { clear -HF. induction HF as [|r h rs hs (_ & Ei & _) _ IH]; simpl;
      [done|by rewrite Ei, IH]. }
  split; [|split; [|split]].
  - apply Forall2_length in HF. unfold Py.len. rewrite HF. subst hits.
    rewrite length_take, sorted_desc_perm. unfold Faiss.scan.
    rewrite length_imap. lia.
  - apply Forall_forall. intros r Hr.
    apply list_elem_of_lookup in Hr as [i Hi].
    destruct (Forall2_lookup_l _ _ _ _ _ HF Hi) as ([score idx] & Hh & Es & Ei & Et).
    apply list_elem_of_lookup_2, Hscan, scan_hit in Hh as [Hr (v & Hv & Hs)].
    simpl in *. rewrite Ei. split; [lia|]. split; [done|].
    exists v. split; [done|]. by rewrite Es.
  - assert (StronglySorted (desc fst) hits) as Hs.
    { subst hits.
      pose proof (sorted_desc_sorted fst
                    (Faiss.scan (App.index doc_data) (encode query))) as Hs.
      rewrite <- (take_drop (Z.to_nat k)) in Hs.
      by apply StronglySorted_app_1_l in Hs. }
    clear -HF Hs. revert results HF.
    induction Hs as [|h hs Hs IH Hh]; intros results HF.
    + apply Forall2_nil_inv_r in HF as ->. constructor.
    + apply Forall2_cons_inv_r in HF as (r & rs & (Er & _) & HF & ->).
      constructor; [by apply IH|].
      apply Forall_forall. intros r' Hr'.
      apply list_elem_of_lookup in Hr' as [i Hi].
      destruct (Forall2_lookup_l _ _ _ _ _ HF Hi) as (h' & Hh' & Er' & _).
      rewrite Forall_forall in Hh.
      specialize (Hh h' (list_elem_of_lookup_2 _ _ _ Hh')).
      unfold desc in *. by rewrite Er, Er'.
  - rewrite Eidx. subst hits.
    pose proof (scan_labels_NoDup (App.index doc_data) (encode query)) as Hnd.
    rewrite <- (sorted_desc_perm fst) in Hnd.
    rewrite <- (take_drop (Z.to_nat k) (Py.sorted_desc fst _)) in Hnd.
    rewrite map_app in Hnd. by apply NoDup_app in Hnd as [? _].
Qed.
End IndexedSessionFacts.

Lemma ingestion_installs_consistent_session_witness :
  exists doc_data,
    App.user_documents
      (App.create_user_index simple_tokenize toy_encode plain_extract
         plain_extract "2024-01-02T00:00:00" one_chunk_store
         "u2" "u1_a.pdf" "a.pdf").2
    = <["u2" := doc_data]> (App.user_documents one_chunk_store)
    /\ App.upload_folder
         (App.create_user_index simple_tokenize toy_encode plain_extract
            plain_extract "2024-01-02T00:00:00" one_chunk_store
            "u2" "u1_a.pdf" "a.pdf").2
       = App.upload_folder one_chunk_store
    /\ App.metadata doc_data
       = {| App.filename := "a.pdf"; App.chunks := ["Alpha is first."];
            App.upload_date := "2024-01-02T00:00:00"; App.total_chunks := 1 |}
    /\ "a.pdf" = "a.pdf"
    /\ ["Alpha is first."] <> []
    /\ 1 = Py.len ["Alpha is first."]
    /\ Faiss.xb (App.index doc_data) = map toy_encode ["Alpha is first."]
    /\ Faiss.ntotal (App.index doc_data) = 1
    /\ (Py.endswith "a.pdf" ".pdf" = true \/ Py.endswith "a.pdf" ".docx" = true).
Proof.
  apply (ingestion_installs_consistent_session simple_tokenize toy_encode
           plain_extract plain_extract "2024-01-02T00:00:00" one_chunk_store
           _ "u2" "u1_a.pdf" "a.pdf"
           {| App.filename := "a.pdf"; App.chunks := ["Alpha is first."];
              App.upload_date := "2024-01-02T00:00:00";
              App.total_chunks := 1 |}).
  vm_compute. reflexivity.
Defined.

Lemma search_of_indexed_session_witness :
  exists results,
    App.semantic_search toy_encode sixty_chunk_store "u1" "Alpha" 5
    = Py.Return results
    /\ Py.len results = 5
    /\ Forall (fun r =>
         0 <= App.chunk_index r
         < Py.len (App.chunks (App.metadata sixty_chunk_doc))
         /\ App.chunks (App.metadata sixty_chunk_doc) !! Z.to_nat (App.chunk_index r)
            = Some (App.chunk_text_of r)
         /\ exists v,
              Faiss.xb (App.index sixty_chunk_doc) !! Z.to_nat (App.chunk_index r)
              = Some v
              /\ App.score r = Faiss.inner_product (toy_encode "Alpha") v) results
    /\ StronglySorted (desc App.score) results
    /\ NoDup (map App.chunk_index results).
Proof.
  apply (search_of_indexed_session toy_encode sixty_chunk_store "u1" "Alpha" 5
           sixty_chunk_doc).
  - reflexivity.
  - reflexivity.
  - vm_compute. reflexivity.
  - vm_compute. split; [reflexivity|discriminate].
Defined.

Lemma prefix_extend (p s x : string) :
  String.prefix p s = true -> String.prefix p (s +:+ x) = true.
Proof.
  revert s. induction p as [|c p IH]; intros s H; [by destruct (s +:+ x)|].
  destruct s as [|c' s]; [done|].
  change (String c' s +:+ x) with (String c' (s +:+ x)). simpl in *.
  destruct (ascii_dec c c'); [by apply IH|done].
Qed.

Lemma length_append (a b : string) :
  String.length (a +:+ b) = (String.length a + String.length b)%nat.
Proof.
  induction a as [|c a IH]; [done|].
  change (String c a +:+ b) with (String c (a +:+ b)). simpl. by rewrite IH.
Qed.

Lemma length_substring_0 (n : nat) (s : string) :
  (String.length (String.substring 0 n s) <= n)%nat.
Proof.
  revert s. induction n as [|n IH]; intros s; destruct s as [|c s]; simpl;
    try lia.
  specialize (IH s). lia.
Qed.

Section RouteFacts.
Variable sent_tokenize : string -> list string.
Variable encode : string -> Faiss.vector.
Variables extract_pdf extract_docx : string -> Py.result string.
Variables now uuid4 : string.
Variable save_ok : string -> bool.
Variable qa_chain : string -> string -> string.

(** X8: deleting an existing session leaves every other session as it was
    and removes from the upload folder exactly the files whose name starts
    with the id; so the uploads of any other user whose id begins with the
    deleted id are removed as well. *)
Theorem delete_removes_prefixed_files (st : App.State) (user_id : string) :
  is_Some (App.user_documents st !! user_id) ->
  exists st',
    App.delete_user_document st user_id
    = ((App.MessageBody "Document deleted successfully", 200), st')
    /\ (forall other, other <> user_id ->
          App.user_documents st' !! other = App.user_documents st !! other)
    /\ (forall file content,
          App.upload_folder st' !! file = Some content
          <-> App.upload_folder st !! file = Some content
              /\ Py.startswith file user_id = false)
    /\ (forall other name,
          Py.startswith other user_id = true ->
          App.upload_folder st' !! (other +:+ "_" +:+ name) = None).
Proof.
  intros Hin. eexists. split.
  { unfold App.delete_user_document. by rewrite bool_decide_true. }
  cbn [App.user_documents App.upload_folder]. split; [|split].
  - intros other Hne. by apply lookup_delete_ne.
  - intros file content. by rewrite map_lookup_filter_Some.
  - intros other name Hpre. apply map_lookup_filter_None. right.
    intros content _. cbn [fst]. unfold Py.startswith in *.
    rewrite prefix_extend; done.
Qed.


(** X10: whatever the request and the store, the answer to a question lists
    at most three sources, and the text of a source has at most 203
    characters (200 of the chunk and the three dots). *)
Theorem answer_lists_at_most_three_sources
    (st : App.State) (user_id question : option string) :
  let sources :=
    sources_of (App.ask_question encode qa_chain st user_id question).1 in
  (length sources <= 3)%nat
  /\ Forall (fun source => (String.length source.1 <= 203)%nat) sources.
Proof.
  unfold App.ask_question.
  destruct (App.missing user_id || App.missing question);
    [by split; [simpl; lia|constructor]|].
  cbv zeta. destruct (negb _); [by split; [simpl; lia|constructor]|].
  destruct (App.semantic_search _ _ _ _ _) as [results|e];
    [|by split; [simpl; lia|constructor]].
  destruct (negb (Py.truthy results)); [by split; [simpl; lia|constructor]|].
  cbn [fst sources_of]. split.
  - rewrite length_map. unfold Py.slice_to, Py.len.
    destruct (Z.ltb_spec 3 0); [lia|]. rewrite length_take. lia.
  - apply Forall_forall. intros source Hs.
    apply list_elem_of_fmap in Hs as (r & -> & _). cbn [fst].
    rewrite length_append.
    pose proof (length_substring_0 200 (App.chunk_text_of r)). simpl. lia.
Qed.
End RouteFacts.

Lemma delete_removes_prefixed_files_witness :
  exists st',
    App.delete_user_document two_user_store "u1"
    = ((App.MessageBody "Document deleted successfully", 200), st')
    /\ (forall other, other <> "u1" ->
          App.user_documents st' !! other
          = App.user_documents two_user_store !! other)
    /\ (forall file content,
          App.upload_folder st' !! file = Some content
          <-> App.upload_folder two_user_store !! file = Some content
              /\ Py.startswith file "u1" = false)
    /\ (forall other name,
          Py.startswith other "u1" = true ->
          App.upload_folder st' !! (other +:+ "_" +:+ name) = None).
Proof.
  apply (delete_removes_prefixed_files two_user_store "u1").
  exists one_chunk_doc. reflexivity.
Defined.


(** ** More on the ensemble search of [main.py] *)

Lemma dict_set_Forall (P : Z * Main.Entry -> Prop) k v dict :
  Forall P dict -> P (k, v) -> Forall P (Main.dict_set k v dict).
Proof.
  intros HF Hkv. induction HF as [|[k' v'] dict Hx HF IH]; simpl.
  - by constructor.
  - destruct (Z.eqb_spec k' k) as [->|Hne]; constructor; done.
Qed.

Lemma dict_get_elem k e dict : Main.dict_get k dict = Some e -> (k, e) ∈ dict.
Proof.
  induction dict as [|[k' v'] dict IH]; simpl; [done|].
  destruct (Z.eqb_spec k' k) as [->|Hne].
  - intros [= ->]. left.
  - intros H. right. by apply IH.
Qed.

Lemma getitem_valid_lookup (df : list Main.Row) idx row :
  -1 <= idx -> valid_label df idx = true ->
  Py.getitem df idx = Some row ->
  0 <= idx < Py.len df /\ df !! Z.to_nat idx = Some row.
Proof.
  unfold valid_label, Py.getitem. intros Hlo Hv.
  apply andb_prop in Hv as [Hne Hlt].
  apply negb_true_iff, Z.eqb_neq in Hne. apply Z.ltb_lt in Hlt.
  destruct (Z.leb_spec 0 idx); [|lia].
  destruct (Z.ltb_spec idx (Py.len df)); [|lia]. simpl. by split.
Qed.

Section RowFacts.
Variable df : list Main.Row.

Abbreviation of_row := (fun kv : Z * Main.Entry => entry_of_row df kv.1 kv.2).

Lemma primary_pass_rows hits dict0 :
  Forall (fun hit => -1 <= hit.2) hits ->
  Forall of_row dict0 ->
  forall dict,
    fold_left (Main.primary_pass df) hits (Py.Return dict0) = Py.Return dict ->
    Forall of_row dict.
Proof.
  intros Hwf. revert dict0.
  induction Hwf as [|[score idx] hits Hh Hwf IH]; intros dict0 H0 dict E.
  - by injection E as <-.
  - cbn [fold_left] in E. rewrite primary_pass_eq in E. simpl in Hh.
    destruct (valid_label df idx) eqn:Hv; [|by eapply IH].
    destruct (getitem_valid df idx Hh Hv) as [row Hrow].
    unfold Main.iloc in E. rewrite Hrow in E.
    cbn [Py.of_option mbind result_bind Py.bind] in E.
    eapply IH; [|exact E]. apply dict_set_Forall; [done|].
    destruct (getitem_valid_lookup df idx row Hh Hv Hrow) as [Hr Hl].
    split; [simpl; lia|]. by exists row.
Qed.

Lemma enhanced_pass_rows hits dict0 :
  Forall (fun hit => -1 <= hit.2) hits ->
  Forall of_row dict0 ->
  forall dict,
    fold_left (Main.enhanced_pass df) hits (Py.Return dict0) = Py.Return dict ->
    Forall of_row dict.
Proof.
  intros Hwf. revert dict0.
  induction Hwf as [|[score idx] hits Hh Hwf IH]; intros dict0 H0 dict E.
  - by injection E as <-.
  - cbn [fold_left] in E. rewrite enhanced_pass_eq in E. simpl in Hh.
    destruct (valid_label df idx) eqn:Hv; [|by eapply IH].
    destruct (getitem_valid df idx Hh Hv) as [row Hrow].
    unfold Main.iloc in E. rewrite Hrow in E.
    cbn [Py.of_option mbind result_bind Py.bind] in E.
    destruct (getitem_valid_lookup df idx row Hh Hv Hrow) as [Hr Hl].
    destruct (Main.dict_get (Main.chunk_id row) dict0) as [e|] eqn:Eget.
    + eapply IH; [|exact E]. apply dict_set_Forall; [done|].
      apply dict_get_elem in Eget. rewrite Forall_forall in H0.
      exact (H0 _ Eget).
    + eapply IH; [|exact E]. apply dict_set_Forall; [done|].
      split; [simpl; lia|]. by exists row.
Qed.
End RowFacts.

Lemma union_chunk_ids df (dict : Main.Dict) :
  Forall (fun kv => entry_of_row df kv.1 kv.2) dict ->
  map (result_chunk_id df)
      (map Main.with_combined_score (Main.dict_values dict))
  = map (fun kv => Some kv.1) dict.
Proof.
  induction 1 as [|[c e] dict (_ & row & Hrow & Hc & _) _ IH]; [done|].
  cbn [map Main.dict_values] in *. unfold Main.dict_values in IH. rewrite IH.
  f_equal. unfold result_chunk_id. cbn [Main.entry Main.with_combined_score snd].
  simpl in Hrow, Hc. rewrite Hrow. simpl. by rewrite Hc.
Qed.

Section EnsembleMore.
Variables primary_model secondary_model : string -> Faiss.vector.
Variable llm_chain : string -> string.

(** The search returns, and its results are the first [k] of the sorted
    union built from the two hit lists. *)
Lemma ensemble_search_returns (st : Main.State) (query : string) (k : Z) :
  0 < k ->
  Faiss.has_dim (Faiss.d (Main.index st)) (primary_model query) = true ->
  Faiss.has_dim (Faiss.d (Main.index st)) (secondary_model query) = true ->
  exists dict,
    NoDup (map fst dict)
    /\ Forall (fun kv => entry_of_row (Main.df_chunks st) kv.1 kv.2) dict
    /\ Main.semantic_search primary_model secondary_model st query k
       = Py.Return
           (take (Z.to_nat k)
              (Py.sorted_desc Main.combined_score
                 (map Main.with_combined_score (Main.dict_values dict)))).
Proof.
  intros Hk Hp Hs.
  set (primary := Faiss.knn (Main.index st) (primary_model query) (Z.to_nat k)).
  set (enhanced := Faiss.knn (Main.index st) (secondary_model query) (Z.to_nat k)).
  destruct (primary_pass_view (Main.df_chunks st) primary) as (dict0 & E0 & V0).
  { apply knn_labels. }
  destruct (enhanced_pass_view (Main.df_chunks st) primary enhanced dict0)
    as (dict & E & [Hnd _]); [apply knn_labels|done|].
  exists dict. split; [done|]. split.
  - eapply enhanced_pass_rows; [apply knn_labels| |exact E].
    eapply primary_pass_rows; [apply knn_labels| |exact E0]. constructor.
  - unfold Main.semantic_search.
    rewrite !search_returns by done. cbn [mbind result_bind Py.bind].
    rewrite !zip_fst_snd. fold primary enhanced.
    unfold Main.combine. rewrite E0. cbn [mbind result_bind Py.bind].
    rewrite E. cbn [mbind result_bind Py.bind].
    by rewrite slice_to_take by lia.
Qed.

(** X11: for [k > 0] and query embeddings of the index dimension the search
    returns at most [k] results; each points to a row of the metadata table
    (never to a padding slot) and carries the theme, file name and text of
    that row; and no two results point to rows with the same chunk id. *)
Theorem ensemble_results_point_to_rows
    (st : Main.State) (query : string) (k : Z) :
  0 < k ->
  Faiss.has_dim (Faiss.d (Main.index st)) (primary_model query) = true ->
  Faiss.has_dim (Faiss.d (Main.index st)) (secondary_model query) = true ->
  exists results,
    Main.semantic_search primary_model secondary_model st query k
    = Py.Return results
    /\ Py.len results <= k
    /\ Forall (fun r =>
         0 <= Main.idx (Main.entry r) < Py.len (Main.df_chunks st)
         /\ exists row,
              Main.df_chunks st !! Z.to_nat (Main.idx (Main.entry r)) = Some row
              /\ Main.e_theme (Main.entry r) = Main.theme row
              /\ Main.e_file (Main.entry r) = Main.file_name row
              /\ Main.e_chunk_text (Main.entry r) = Main.chunk_text row) results
    /\ NoDup (map (result_chunk_id (Main.df_chunks st)) results).
Proof.
  intros Hk Hp Hs.
  destruct (ensemble_search_returns st query k Hk Hp Hs) as (dict & Hnd & Hrows & E).
  eexists. split; [exact E|]. split; [|split].
  - unfold Py.len. rewrite length_take. lia.
  - apply Forall_forall. intros r Hr.
    apply elem_of_take in Hr as (i & Hr%list_elem_of_lookup_2 & _).
    rewrite sorted_desc_perm in Hr.
    apply list_elem_of_fmap in Hr as (e & -> & He).
    apply list_elem_of_fmap in He as ([c e'] & -> & Hin).
    rewrite Forall_forall in Hrows.
    destruct (Hrows _ Hin) as (Hidx & row & Hrow & _ & Ht & Hf & Hx).
    cbn [Main.entry Main.with_combined_score snd fst] in *.
    apply lookup_lt_Some in Hrow as Hlt. unfold Py.len.
    split; [lia|]. by exists row.
  - assert (NoDup (map (result_chunk_id (Main.df_chunks st))
                       (map Main.with_combined_score (Main.dict_values dict))))
      as Hu.
    { rewrite union_chunk_ids by done.
      rewrite <- (map_map fst Some).
      apply (NoDup_fmap_2 Some). exact Hnd. }
    rewrite <- (sorted_desc_perm Main.combined_score) in Hu.
    rewrite <- (take_drop (Z.to_nat k) (Py.sorted_desc _ _)) in Hu.
    rewrite map_app in Hu. by apply NoDup_app in Hu as [? _].
Qed.

End EnsembleMore.

Lemma ensemble_results_point_to_rows_witness :
  exists results,
    Main.semantic_search toy_primary toy_secondary corpus "Who is first?" 2
    = Py.Return results
    /\ Py.len results <= 2
    /\ Forall (fun r =>
         0 <= Main.idx (Main.entry r) < Py.len (Main.df_chunks corpus)
         /\ exists row,
              Main.df_chunks corpus !! Z.to_nat (Main.idx (Main.entry r)) = Some row
              /\ Main.e_theme (Main.entry r) = Main.theme row
              /\ Main.e_file (Main.entry r) = Main.file_name row
              /\ Main.e_chunk_text (Main.entry r) = Main.chunk_text row) results
    /\ NoDup (map (result_chunk_id (Main.df_chunks corpus)) results).
Proof.
  apply (ensemble_results_point_to_rows toy_primary toy_secondary corpus
           "Who is first?" 2).
  - lia.
  - reflexivity.
  - reflexivity.
Defined.


(** ** Questions on an ingested session *)

Lemma knn_length ix q k : length (Faiss.knn ix q k) = k.
Proof.
  unfold Faiss.knn. rewrite length_app, length_replicate.
  pose proof (firstn_le_length k (Py.sorted_desc fst (Faiss.scan ix q))). lia.
Qed.

Lemma knn_label_range ix q k :
  Forall (fun hit => -1 <= hit.2 < Z.max 0 (Faiss.ntotal ix)) (Faiss.knn ix q k).
Proof.
  unfold Faiss.knn. apply Forall_app. split.
  - apply Forall_take. rewrite sorted_desc_perm.
    apply Forall_forall. intros [score idx] Hin.
    apply scan_hit in Hin as [Hr _]. simpl. lia.
  - apply Forall_forall. intros hit ->%elem_of_replicate_inv. simpl.
    unfold Faiss.ntotal, Py.len. lia.
Qed.

(** Every slot, padding included, passes the guard [idx < len(chunks)] and
    indexes the list, so the loop keeps one result per slot. *)
Lemma collect_hits_all chunks hits acc :
  chunks <> [] ->
  Forall (fun hit => -1 <= hit.2 < Py.len chunks) hits ->
  exists results,
    fold_left (App.collect_hit chunks) hits (Py.Return acc)
    = Py.Return (acc ++ results)
    /\ length results = length hits.
Proof.
  intros Hne. revert acc.
  induction hits as [|[score idx] hits IH]; intros acc Hv.
  - exists []. simpl. by rewrite app_nil_r.
  - apply Forall_cons in Hv as [Hh Hv]. simpl in Hh.
    assert (exists text, Py.getitem chunks idx = Some text) as [text Ht].
    { unfold Py.getitem, Py.len in *.
      assert (0 < length chunks)%nat by (destruct chunks; [done|simpl; lia]).
      destruct (Z.leb_spec 0 idx).
      - destruct (Z.ltb_spec idx (Z.of_nat (length chunks))); [|lia]. simpl.
        apply lookup_lt_is_Some_2. lia.
      - destruct (Z.leb_spec (- Z.of_nat (length chunks)) idx); [|lia].
        destruct (Z.ltb_spec idx 0); [|lia]. simpl.
        apply lookup_lt_is_Some_2. lia. }
    cbn [fold_left]. unfold App.collect_hit at 2.
    cbn [mbind result_bind Py.bind].
    destruct (Z.ltb_spec idx (Py.len chunks)); [|lia].
    rewrite Ht. cbn [Py.of_option mbind result_bind Py.bind].
    destruct (IH (acc ++ [{| App.chunk_text_of := text; App.score := score;
                             App.chunk_index := idx |}]) Hv)
      as (results & E & Hlen).
    eexists (_ :: results). rewrite E, <- app_assoc. split; [done|].
    simpl. by rewrite Hlen.
Qed.

Section AnswerFacts.
Variable encode : string -> Faiss.vector.
Variable qa_chain : string -> string -> string.

(** X14: on a session with at least one chunk and one vector per chunk, a
    question with a query embedding of the index dimension is always
    answered from exactly five retrieved passages and with exactly three
    sources, however few chunks the document has. *)
Theorem question_always_uses_five_passages
    (st : App.State) (user_id question : string) (doc_data : App.DocData) :
  user_id <> "" ->
  question <> "" ->
  App.user_documents st !! user_id = Some doc_data ->
  App.chunks (App.metadata doc_data) <> [] ->
  Faiss.ntotal (App.index doc_data) = Py.len (App.chunks (App.metadata doc_data)) ->
  Faiss.has_dim (Faiss.d (App.index doc_data)) (encode question) = true ->
  exists results,
    App.semantic_search encode st user_id question 5 = Py.Return results
    /\ length results = 5%nat
    /\ App.ask_question encode qa_chain st (Some user_id) (Some question)
       = (App.SourcedAnswerBody question
            (qa_chain (Py.join (App.newline +:+ App.newline)
                         (map App.chunk_text_of results)) question)
            (map (fun r => (String.substring 0 200 (App.chunk_text_of r) +:+ "...",
                            App.score r))
                 (take 3 results)), 200).
Proof.
  intros Hid Hq Hdoc Hne Hn Hdim.
  assert (exists results,
            App.semantic_search encode st user_id question 5 = Py.Return results
            /\ length results = 5%nat) as (results & E & Hlen).
  { unfold App.semantic_search. rewrite Hdoc.
    rewrite search_returns by (done || lia).
    cbn [mbind result_bind Py.bind]. rewrite zip_fst_snd.
    destruct (collect_hits_all (App.chunks (App.metadata doc_data))
                (Faiss.knn (App.index doc_data) (encode question) (Z.to_nat 5)) [])
      as (results & E & Hlen); [done| |].
    - eapply Forall_impl; [apply knn_label_range|].
      intros hit. simpl. rewrite Hn. unfold Py.len. lia.
    - exists results. split; [exact E|]. by rewrite Hlen, knn_length. }
  exists results. split; [done|]. split; [done|].
  unfold App.ask_question. rewrite !missing_some by done.
  cbv zeta. cbn [orb default from_option id]. rewrite Hdoc.
  rewrite bool_decide_true by eauto. cbn [negb]. rewrite E.
  rewrite truthy_nonempty by (by destruct results).
  cbn [negb]. by rewrite slice_to_take by lia.
Qed.
End AnswerFacts.

Lemma question_always_uses_five_passages_witness :
  exists results,
    App.semantic_search toy_encode one_chunk_store "u1" "Who is first?" 5
    = Py.Return results
    /\ length results = 5%nat
    /\ App.ask_question toy_encode toy_chain one_chunk_store
         (Some "u1") (Some "Who is first?")
       = (App.SourcedAnswerBody "Who is first?"
            (toy_chain (Py.join (App.newline +:+ App.newline)
                          (map App.chunk_text_of results)) "Who is first?")
            (map (fun r => (String.substring 0 200 (App.chunk_text_of r) +:+ "...",
                            App.score r))
                 (take 3 results)), 200).
Proof.
  apply (question_always_uses_five_passages toy_encode toy_chain one_chunk_store
           "u1" "Who is first?" one_chunk_doc).
  - discriminate.
  - discriminate.
  - reflexivity.
  - discriminate.
  - reflexivity.
  - reflexivity.
Defined.

Lemma chunks_are_contiguous_runs_witness :
  exists before g after,
    simple_tokenize three_sentences = before ++ g ++ after
    /\ "Beta is second. Gamma is third." = Py.join " " g.
Proof.
  apply (proj1 (chunks_are_contiguous_runs simple_tokenize three_sentences 6 1)).
  vm_compute. right. left.
Defined.
